(** * twisted.spread.flavors: flavors of remotely accessible objects

    A shallow embedding of [twisted/spread/flavors.py] (Perspective Broker):
    the [jellyFor] methods of the flavors, the reconstruction side
    ([RemoteCopy], [RemoteCache], [unjellyCached], [unjellyLCache]) and the
    finalizer that drives distributed reference counting.

    Python objects live in an explicit heap: an instance is a class together
    with a reference to its attribute dictionary, so that the aliasing created
    by [cProxy.__dict__ = self.__dict__] is visible.  Methods are programs of
    a small state-and-exception monad over that heap. *)

From stdpp Require Import base gmap strings list functions.
From Stdlib Require Import ZArith Lia.

Set Warnings "-register-all".
Open Scope Z_scope.
Open Scope string_scope.

(** ** Values and the heap *)

(** Object identities, as observed through the [id] builtin. *)
Definition addr := positive.
(** Identity of a broker (one per connection). *)
Definition conn := positive.

(** Python values reaching this module: data, s-expressions (lists and tuples
    of values), and references to instances, dictionaries and brokers. *)
Inductive value :=
| VNone
| VInt (n : Z)
| VStr (s : string)
| VList (l : list value)
| VTuple (l : list value)
| VObj (a : addr)
| VDict (d : addr)
| VBroker (c : conn).

(** The classes of this module, by the [jellyFor]/[unjellyFor] they inherit;
    [FPlain] for classes outside the hierarchy ([_Dummy], observers). *)
Inductive flavor :=
| FSerializable | FReferenceable | FRoot | FViewPoint | FViewable
| FCopyable | FCacheable | FRemoteCopy | FRemoteCache | FPlain.

Record pyclass := PyClass { cname : string; cflavor : flavor }.

(** An instance: its [__class__] and a reference to its [__dict__]. *)
Record instance := Instance { cls : pyclass; dict_ : addr }.

Inductive exn :=
| AttributeError (name : string)
| TypeError (msg : string)
| IndexError
| AssertionError (msg : string)
| ProtocolError (msg : string)
| UnknownLocalId
| DuplicateCacheState
| CannotViewWithoutContext
| Dangling (a : addr).

(** Reference to a cached object on the sending side, with its count of
    references held by the peer. *)
Record Local := mkLocal { lobject : addr; refcount : nat }.

(** The tables of one broker. *)
Record Broker := mkBroker {
  serializingPerspective : value;
  currentLocalID : Z;
  luids : gmap (Z + Z * Z) Z;
  localObjects : gmap Z Local;
  remotelyCachedLUIDs : gmap (Z + Z * Z) Z;
  remotelyCachedObjects : gmap Z Local;
  locallyCachedObjects : gmap Z addr;
  decached : list value
}.

Record world := mkWorld {
  objs : gmap addr instance;
  dicts : gmap addr (gmap string value);
  next : addr;
  brokers : conn → Broker;
  logged : list exn
}.

(** ** The monad of methods *)

Inductive result (A : Type) :=
| Ok (a : A) (w : world)
| Raise (e : exn) (w : world).
Arguments Ok {A} a w.
Arguments Raise {A} e w.

Definition M (A : Type) := world → result A.

Definition ret {A} (a : A) : M A := fun w => Ok a w.
Definition raise {A} (e : exn) : M A := fun w => Raise e w.
Definition bind {A B} (m : M A) (k : A → M B) : M B :=
  fun w => match m w with
           | Ok a w' => k a w'
           | Raise e w' => Raise e w'
           end.
(** [try: m except: h] with a bare [except]. *)
Definition try_except {A} (m : M A) (h : exn → M A) : M A :=
  fun w => match m w with
           | Ok a w' => Ok a w'
           | Raise e w' => h e w'
           end.
Definition get_world : M world := fun w => Ok w w.
Definition put_world (w' : world) : M unit := fun _ => Ok tt w'.

#[global] Instance M_ret : MRet M := @ret.
#[global] Instance M_bind : MBind M := λ A B k m, bind m k.

Definition world_of {A} (r : result A) : world :=
  match r with Ok _ w => w | Raise _ w => w end.

(** ** Heap operations *)

Definition set_objs (f : gmap addr instance → gmap addr instance) (w : world) : world :=
  mkWorld (f (objs w)) (dicts w) (next w) (brokers w) (logged w).
Definition set_dicts (f : gmap addr (gmap string value) → gmap addr (gmap string value))
    (w : world) : world :=
  mkWorld (objs w) (f (dicts w)) (next w) (brokers w) (logged w).
Definition set_broker (c : conn) (b : Broker) (w : world) : world :=
  mkWorld (objs w) (dicts w) (next w) (<[c := b]> (brokers w)) (logged w).

Definition get_obj (a : addr) : M instance :=
  fun w => match objs w !! a with
           | Some o => Ok o w
           | None => Raise (Dangling a) w
           end.
Definition get_dict (d : addr) : M (gmap string value) :=
  fun w => match dicts w !! d with
           | Some m => Ok m w
           | None => Raise (Dangling d) w
           end.

(** A fresh address. *)
Definition fresh : M addr :=
  fun w => Ok (next w)
    (mkWorld (objs w) (dicts w) (Pos.succ (next w)) (brokers w) (logged w)).

(** Allocate a dictionary object. *)
Definition new_dict (m : gmap string value) : M addr :=
  d ← fresh;
  w ← get_world;
  put_world (set_dicts (insert d m) w);;
  ret d.

(** [C()] for a class without constructor arguments: a new instance with an
    empty [__dict__]. *)
Definition new_instance (c : pyclass) : M addr :=
  d ← new_dict ∅;
  a ← fresh;
  w ← get_world;
  put_world (set_objs (insert a (Instance c d)) w);;
  ret a.

(** [a.__class__] *)
Definition get_class (a : addr) : M pyclass :=
  o ← get_obj a; ret (cls o).
(** [a.__class__ = c] *)
Definition set_class (a : addr) (c : pyclass) : M unit :=
  o ← get_obj a;
  w ← get_world;
  put_world (set_objs (insert a (Instance c (dict_ o))) w).
(** [a.__dict__] *)
Definition get___dict__ (a : addr) : M addr :=
  o ← get_obj a; ret (dict_ o).
(** [a.__dict__ = d]: rebinds the reference, the old dictionary is untouched. *)
Definition set___dict__ (a : addr) (d : addr) : M unit :=
  o ← get_obj a;
  get_dict d;;
  w ← get_world;
  put_world (set_objs (insert a (Instance (cls o) d)) w).

(** Class-level attributes declared in the module: [Referenceable.perspective],
    [RemoteCache.broker] and [RemoteCache.luid], all [None]. *)
Definition class_attr (f : flavor) (name : string) : option value :=
  match f with
  | FReferenceable | FRoot | FViewPoint =>
      if decide (name = "perspective") then Some VNone else None
  | FRemoteCache =>
      if decide (name = "broker") then Some VNone
      else if decide (name = "luid") then Some VNone else None
  | _ => None
  end.

(** [a.name]: the instance dictionary first, then the class. *)
Definition getattr (a : addr) (name : string) : M value :=
  o ← get_obj a;
  m ← get_dict (dict_ o);
  match m !! name with
  | Some v => ret v
  | None =>
      match class_attr (cflavor (cls o)) name with
      | Some v => ret v
      | None => raise (AttributeError name)
      end
  end.

(** [a.name = v]: a store into the instance dictionary, seen by every
    instance sharing it. *)
Definition setattr (a : addr) (name : string) (v : value) : M unit :=
  o ← get_obj a;
  m ← get_dict (dict_ o);
  w ← get_world;
  put_world (set_dicts (insert (dict_ o) (<[name := v]> m)) w).

(** [l[i]] on a list or tuple. *)
Definition index (l : list value) (i : nat) : M value :=
  match l !! i with
  | Some v => ret v
  | None => raise IndexError
  end.

(** The [id] builtin on references; [None] is an object of its own. *)
Definition id (v : value) : M Z :=
  match v with
  | VNone => ret 0
  | VObj a => ret (Z.pos a)
  | VDict d => ret (Z.pos d)
  | VBroker c => ret (Z.neg c)
  | _ => raise (TypeError "id of a data value is not modelled")
  end.

(** Truth value of a reference in an [if]. *)
Definition truthy (v : value) : bool :=
  match v with
  | VNone => false
  | VInt n => negb (n =? 0)%Z
  | VStr s => negb (String.eqb s "")
  | VList l | VTuple l => match l with [] => false | _ => true end
  | VObj _ | VDict _ | VBroker _ => true
  end.

(** ** Identity keys *)

Module Serializable.
(** [processUniqueID]: by default the [id] builtin. *)
Definition processUniqueID (self : addr) : M (Z + Z * Z) :=
  i ← id (VObj self);
  ret (inl i).
End Serializable.

Module ViewPoint.
Definition __init__ (self : addr) (perspective object : value) : M unit :=
  setattr self "perspective" perspective;;
  setattr self "object" object.

(** An ID unique to a proxy for this perspective+object combination. *)
Definition processUniqueID (self : addr) : M (Z + Z * Z) :=
  p ← getattr self "perspective";
  o ← getattr self "object";
  i ← id p;
  j ← id o;
  ret (inr (i, j)).
End ViewPoint.

(** [instance.processUniqueID()], resolved on the class of the instance:
    only [ViewPoint] overrides the method of [Serializable]. *)
Definition processUniqueID (self : addr) : M (Z + Z * Z) :=
  c ← get_class self;
  match cflavor c with
  | FViewPoint => ViewPoint.processUniqueID self
  | _ => Serializable.processUniqueID self
  end.

(** ** The broker's tables

    [twisted.spread.pb.Broker] is defined in another module; its
    operations are taken from the description of the cache table. *)

Module Broker.
Definition get (c : conn) : M Broker :=
  w ← get_world; ret (brokers w c).
Definition put (c : conn) (b : Broker) : M unit :=
  w ← get_world; put_world (set_broker c b w).

Definition set_currentLocalID (n : Z) (b : Broker) : Broker :=
  mkBroker (serializingPerspective b) n (luids b) (localObjects b)
    (remotelyCachedLUIDs b) (remotelyCachedObjects b)
    (locallyCachedObjects b) (decached b).
Definition set_references (l : gmap (Z + Z * Z) Z) (o : gmap Z Local)
    (b : Broker) : Broker :=
  mkBroker (serializingPerspective b) (currentLocalID b) l o
    (remotelyCachedLUIDs b) (remotelyCachedObjects b)
    (locallyCachedObjects b) (decached b).
Definition set_outgoing (l : gmap (Z + Z * Z) Z) (o : gmap Z Local)
    (b : Broker) : Broker :=
  mkBroker (serializingPerspective b) (currentLocalID b) (luids b)
    (localObjects b) l o (locallyCachedObjects b) (decached b).
Definition set_incoming (t : gmap Z addr) (b : Broker) : Broker :=
  mkBroker (serializingPerspective b) (currentLocalID b) (luids b)
    (localObjects b) (remotelyCachedLUIDs b) (remotelyCachedObjects b)
    t (decached b).
Definition set_decached (l : list value) (b : Broker) : Broker :=
  mkBroker (serializingPerspective b) (currentLocalID b) (luids b)
    (localObjects b) (remotelyCachedLUIDs b) (remotelyCachedObjects b)
    (locallyCachedObjects b) l.

Definition incref (l : Local) : Local := mkLocal (lobject l) (S (refcount l)).

(** Modelled from the spec: [Broker.newLocalID] is missing; a LUID is
    "an integer, unique within one connection's outgoing cache, assigned
    monotonically". *)
Definition newLocalID (c : conn) : M Z :=
  b ← get c;
  put c (set_currentLocalID (currentLocalID b + 1) b);;
  ret (currentLocalID b + 1).

(** Modelled from the spec: [Broker.registerReference] is missing;
    [registerReference(object) -> RefId], "a server-registered reference id
    obtained from the connection", one per identity key of the object. *)
Definition registerReference (c : conn) (object : addr) : M Z :=
  puid ← processUniqueID object;
  b ← get c;
  match luids b !! puid with
  | Some luid =>
      put c (set_references (luids b) (alter incref luid (localObjects b)) b);;
      ret luid
  | None =>
      luid ← newLocalID c;
      b ← get c;
      put c (set_references (<[puid := luid]> (luids b))
               (<[luid := mkLocal object 1]> (localObjects b)) b);;
      ret luid
  end.

(** Modelled from the spec: [Broker.cachedRemotelyAs] is missing;
    [lookupOutgoing(object) -> Option<LUID>] on the identity of the object;
    with [incref] the peer is about to hold one more reference. *)
Definition cachedRemotelyAs (c : conn) (instance : addr) (incref_ : bool)
    : M (option Z) :=
  puid ← processUniqueID instance;
  b ← get c;
  match remotelyCachedLUIDs b !! puid with
  | Some luid =>
      (if incref_
       then put c (set_outgoing (remotelyCachedLUIDs b)
                     (alter incref luid (remotelyCachedObjects b)) b)
       else ret tt);;
      ret (Some luid)
  | None => ret None
  end.

(** Modelled from the spec: [Broker.cacheRemotely] is missing;
    [registerOutgoing(object) -> LUID], "idempotent per object-identity",
    the LUID "assigned monotonically when an object is first cached for
    that connection". *)
Definition cacheRemotely (c : conn) (instance : addr) : M Z :=
  puid ← processUniqueID instance;
  b ← get c;
  match remotelyCachedLUIDs b !! puid with
  | Some luid => ret luid
  | None =>
      luid ← newLocalID c;
      b ← get c;
      put c (set_outgoing (<[puid := luid]> (remotelyCachedLUIDs b))
               (<[luid := mkLocal instance 1]> (remotelyCachedObjects b)) b);;
      ret luid
  end.

(** Modelled from the spec: [Broker.remotelyCachedForLUID] is missing; the
    object whose outgoing cache entry carries this LUID. *)
Definition remotelyCachedForLUID (c : conn) (luid : value) : M addr :=
  match luid with
  | VInt n =>
      b ← get c;
      match remotelyCachedObjects b !! n with
      | Some l => ret (lobject l)
      | None => raise UnknownLocalId
      end
  | _ => raise (TypeError "a LUID is an integer")
  end.

(** [lookupIncoming(LUID) -> Option<proxy>] *)
Definition lookupIncoming (b : Broker) (cid : Z) : option addr :=
  locallyCachedObjects b !! cid.

(** Modelled from the spec: [Broker.cacheLocally] is missing;
    [registerIncoming(LUID, proxy)] "fails with DuplicateCacheState if LUID
    already present". *)
Definition cacheLocally (c : conn) (cid : value) (instance : addr) : M unit :=
  match cid with
  | VInt n =>
      b ← get c;
      match lookupIncoming b n with
      | Some _ => raise DuplicateCacheState
      | None => put c (set_incoming (<[n := instance]> (locallyCachedObjects b)) b)
      end
  | _ => raise (TypeError "a LUID is an integer")
  end.

(** Modelled from the spec: [Broker.cachedLocallyAs] is missing;
    [lookupIncoming], where a reception "fail[s] with UnknownLocalId if the
    incoming cache has no entry for LUID". *)
Definition cachedLocallyAs (c : conn) (cid : value) : M addr :=
  match cid with
  | VInt n =>
      b ← get c;
      match lookupIncoming b n with
      | Some a => ret a
      | None => raise UnknownLocalId
      end
  | _ => raise (TypeError "a LUID is an integer")
  end.

(** Modelled from the spec: [Broker.decCacheRef] is missing; the
    connection's release path, by which "the connection is notified so it
    can decrement the peer's reference count".  Every invocation is
    recorded, in order, with the LUID it was given. *)
Definition decCacheRef (c : conn) (luid : value) : M unit :=
  b ← get c;
  put c (set_decached (decached b ++ [luid]) b).
End Broker.

(** ** The serializer, as this module sees it *)

(** A [jelly] jellier: the broker it serializes for, if any, and the methods
    this module calls on it.  [getInstanceState] is the function of the
    [jelly] module, applied to this jellier.  S-expressions under
    construction are immutable lists here: [l.extend(x)] is [l ++ x]. *)
Module Jellier.
Record t := mk {
  invoker : option conn;
  jelly : value → M value;
  prepare : addr → M (list value);
  preserve : addr → list value → M value;
  getInstanceState : addr → M value
}.
End Jellier.

Module Unjellier.
Record t := mk {
  invoker : option conn;
  unjelly : value → M value;
  setInstanceState : addr → list value → M value
}.
End Unjellier.

(** Methods that subclasses written by users may define: a constructor
    without arguments, and a replacement for [setCopyableState]. *)
Record Subclasses := mkSubclasses {
  init_of : pyclass → option (addr → M unit);
  setCopyableState_of : pyclass → option (addr → value → M unit)
}.

(** Hooks that subclasses of [Copyable] and [Cacheable] may override, by
    class: what state and what type tag to send. *)
Record Overrides := mkOverrides {
  getStateToCopy_of : pyclass → option (addr → M value);
  getStateToCopyFor_of : pyclass → option (addr → value → M value);
  getTypeToCopy_of : pyclass → option (addr → M value);
  getTypeToCopyFor_of : pyclass → option (addr → value → M value);
  getStateToCacheAndObserveFor_of :
    pyclass → option (addr → value → addr → M value)
}.

Definition copy_atom := "copy".
Definition cache_atom := "cache".
Definition cached_atom := "cached".
Definition remote_atom := "remote".

(** [str(self.__class__)] *)
Definition str_class (self : addr) : M string :=
  c ← get_class self; ret (cname c).

(** [jellier.invoker.attr] when the invoker may be [None]. *)
Definition invoker_attr (inv : option conn) (attr : string) : M conn :=
  match inv with
  | Some c => ret c
  | None => raise (AttributeError attr)
  end.

(** ** Flavors: the sending side *)

Module Referenceable.
(** A tuple which will be used as the s-expression to serialize this to a
    peer. *)
Definition jellyFor (self : addr) (jellier : Jellier.t) : M value :=
  inv ← invoker_attr (Jellier.invoker jellier) "registerReference";
  r ← Broker.registerReference inv self;
  ret (VTuple [VStr "remote"; VInt r]).
End Referenceable.

Definition ViewPoint_class : pyclass :=
  PyClass "twisted.spread.flavors.ViewPoint" FViewPoint.

(** [ViewPoint(perspective, object)] *)
Definition new_ViewPoint (perspective object : value) : M addr :=
  vp ← new_instance ViewPoint_class;
  ViewPoint.__init__ vp perspective object;;
  ret vp.

Module Viewable.
(** Serialize a ViewPoint for me and the perspective of the given broker;
    [ViewPoint] inherits [jellyFor] from [Referenceable]. *)
Definition jellyFor (self : addr) (jellier : Jellier.t) : M value :=
  inv ← invoker_attr (Jellier.invoker jellier) "serializingPerspective";
  b ← Broker.get inv;
  vp ← new_ViewPoint (serializingPerspective b) (VObj self);
  Referenceable.jellyFor vp jellier.
End Viewable.

Module Copyable.
(** I will default to returning [self.__dict__]. *)
Definition getStateToCopy (self : addr) : M value :=
  d ← get___dict__ self; ret (VDict d).

(** [self.getStateToCopy()], resolved on the class of [self]. *)
Definition call_getStateToCopy (O : Overrides) (self : addr) : M value :=
  c ← get_class self;
  match getStateToCopy_of O c with
  | Some f => f self
  | None => getStateToCopy self
  end.

(** I will default to calling [getStateToCopy]. *)
Definition getStateToCopyFor (O : Overrides) (self : addr)
    (perspective : value) : M value :=
  call_getStateToCopy O self.

(** [self.getStateToCopyFor(perspective)] *)
Definition call_getStateToCopyFor (O : Overrides) (self : addr)
    (perspective : value) : M value :=
  c ← get_class self;
  match getStateToCopyFor_of O c with
  | Some f => f self perspective
  | None => getStateToCopyFor O self perspective
  end.

(** By default, send the string representation of my class. *)
Definition getTypeToCopy (self : addr) : M value :=
  s ← str_class self; ret (VStr s).

(** [self.getTypeToCopy()] *)
Definition call_getTypeToCopy (O : Overrides) (self : addr) : M value :=
  c ← get_class self;
  match getTypeToCopy_of O c with
  | Some f => f self
  | None => getTypeToCopy self
  end.

(** By default, defer to [self.getTypeToCopy()]. *)
Definition getTypeToCopyFor (O : Overrides) (self : addr)
    (perspective : value) : M value :=
  call_getTypeToCopy O self.

(** [self.getTypeToCopyFor(perspective)] *)
Definition call_getTypeToCopyFor (O : Overrides) (self : addr)
    (perspective : value) : M value :=
  c ← get_class self;
  match getTypeToCopyFor_of O c with
  | Some f => f self perspective
  | None => getTypeToCopyFor O self perspective
  end.

(** Assemble type tag and state to copy for this broker. *)
Definition jellyFor (O : Overrides) (self : addr) (jellier : Jellier.t)
    : M value :=
  match Jellier.invoker jellier with
  | None => Jellier.getInstanceState jellier self
  | Some inv =>
      b ← Broker.get inv;
      let p := serializingPerspective b in
      type_ ← call_getTypeToCopyFor O self p;
      state ← call_getStateToCopyFor O self p;
      jstate ← Jellier.jelly jellier state;
      ret (VTuple [type_; jstate])
  end.
End Copyable.

Definition RemoteCacheObserver_class : pyclass :=
  PyClass "twisted.spread.flavors.RemoteCacheObserver" FPlain.

(** [RemoteCacheObserver(broker, cached, perspective)] *)
Definition new_RemoteCacheObserver (broker : conn) (cached : addr)
    (perspective : value) : M addr :=
  o ← new_instance RemoteCacheObserver_class;
  setattr o "broker" (VBroker broker);;
  setattr o "cached" (VObj cached);;
  setattr o "perspective" perspective;;
  ret o.

Module Cacheable.
(** Get state to cache on the client and client-cache reference to observe
    locally; by default [self.getStateToCopyFor(perspective)]. *)
Definition getStateToCacheAndObserveFor (O : Overrides) (self : addr)
    (perspective : value) (observer : addr) : M value :=
  Copyable.call_getStateToCopyFor O self perspective.

(** [self.getStateToCacheAndObserveFor(perspective, observer)], resolved on
    the class of [self]. *)
Definition call_getStateToCacheAndObserveFor (O : Overrides) (self : addr)
    (perspective : value) (observer : addr) : M value :=
  c ← get_class self;
  match getStateToCacheAndObserveFor_of O c with
  | Some f => f self perspective observer
  | None => getStateToCacheAndObserveFor O self perspective observer
  end.

(** Return an appropriate tuple to serialize me: either a full state or a
    reference to an existing cache. *)
Definition jellyFor (O : Overrides) (self : addr) (jellier : Jellier.t)
    : M value :=
  match Jellier.invoker jellier with
  | None => Jellier.getInstanceState jellier self
  | Some inv =>
      luid ← Broker.cachedRemotelyAs inv self true;
      match luid with
      | None =>
          luid ← Broker.cacheRemotely inv self;
          b ← Broker.get inv;
          let p := serializingPerspective b in
          type_ ← Copyable.call_getTypeToCopyFor O self p;
          observer ← new_RemoteCacheObserver inv self p;
          state ← call_getStateToCacheAndObserveFor O self p observer;
          l ← Jellier.prepare jellier self;
          jstate ← Jellier.jelly jellier state;
          Jellier.preserve jellier self (l ++ [type_; VInt luid; jstate])
      | Some luid => ret (VTuple [VStr cached_atom; VInt luid])
      end
  end.
End Cacheable.

(** ** Flavors: the receiving side *)

Definition _Dummy : pyclass := PyClass "twisted.spread.jelly._Dummy" FPlain.

Module RemoteCopy.
(** [self.__dict__ = state] *)
Definition setCopyableState (self : addr) (state : value) : M unit :=
  match state with
  | VDict d => set___dict__ self d
  | _ => raise (TypeError "__dict__ must be set to a dictionary")
  end.

(** [self.setCopyableState(state)], resolved on the class of [self]. *)
Definition call_setCopyableState (U : Subclasses) (self : addr)
    (state : value) : M unit :=
  c ← get_class self;
  match setCopyableState_of U c with
  | Some f => f self state
  | None => setCopyableState self state
  end.

Definition unjellyFor (U : Subclasses) (self : addr)
    (unjellier : Unjellier.t) (jellyList : list value) : M value :=
  match Unjellier.invoker unjellier with
  | None => Unjellier.setInstanceState unjellier self jellyList
  | Some inv =>
      j ← index jellyList 1;
      state ← Unjellier.unjelly unjellier j;
      call_setCopyableState U self state;;
      ret (VObj self)
  end.
End RemoteCopy.

(** [log.deferr()] *)
Definition log_deferr (e : exn) : M unit :=
  fun w => Ok tt (mkWorld (objs w) (dicts w) (next w) (brokers w) (logged w ++ [e])).

Module RemoteCache.
(** Serialize me (only for the broker I'm for) as the original cached
    reference. *)
Definition jellyFor (self : addr) (jellier : Jellier.t) : M value :=
  match Jellier.invoker jellier with
  | None => Jellier.getInstanceState jellier self
  | Some inv =>
      b ← getattr self "broker";
      match b with
      | VBroker c =>
          if decide (c = inv)
          then luid ← getattr self "luid";
               ret (VTuple [VStr "lcache"; luid])
          else raise (AssertionError
                 "You cannot exchange cached proxies between brokers.")
      | _ => raise (AssertionError
               "You cannot exchange cached proxies between brokers.")
      end
  end.

Definition unjellyFor (U : Subclasses) (self : addr)
    (unjellier : Unjellier.t) (jellyList : list value) : M value :=
  match Unjellier.invoker unjellier with
  | None => Unjellier.setInstanceState unjellier self jellyList
  | Some inv =>
      setattr self "broker" (VBroker inv);;
      luid ← index jellyList 1;
      setattr self "luid" luid;;
      cProxy ← new_instance _Dummy;
      c ← get_class self;
      set_class cProxy c;;
      d ← get___dict__ self;
      set___dict__ cProxy d;;
      (match init_of U c with
       | Some init => init cProxy
       | None => ret tt
       end);;
      luid ← index jellyList 1;
      Broker.cacheLocally inv luid self;;
      j ← index jellyList 2;
      state ← Unjellier.unjelly unjellier j;
      RemoteCopy.call_setCopyableState U cProxy state;;
      d ← get___dict__ cProxy;
      set___dict__ self d;;
      setattr self "broker" (VBroker inv);;
      luid ← index jellyList 1;
      setattr self "luid" luid;;
      ret (VObj cProxy)
  end.

(** Hash me. *)
Definition __hash__ (self : addr) : M Z :=
  d ← get___dict__ self; id (VDict d).

(** Do distributed reference counting on finalize, where [decCacheRef] is
    what the broker held in [self.broker] does when it is told. *)
Definition __del___calling (decCacheRef : conn → value → M unit)
    (self : addr) : M unit :=
  try_except
    (b ← getattr self "broker";
     if truthy b
     then b ← getattr self "broker";
          match b with
          | VBroker c =>
              luid ← getattr self "luid";
              decCacheRef c luid
          | _ => raise (AttributeError "decCacheRef")
          end
     else ret tt)
    log_deferr.

(** The finalizer over the release path of the cache table. *)
Definition __del__ (self : addr) : M unit :=
  __del___calling Broker.decCacheRef self.
End RemoteCache.

Definition unjellyCached (unjellier : Unjellier.t) (unjellyList : list value)
    : M value :=
  luid ← index unjellyList 1;
  inv ← invoker_attr (Unjellier.invoker unjellier) "cachedLocallyAs";
  cNotProxy ← Broker.cachedLocallyAs inv luid;
  cProxy ← new_instance _Dummy;
  c ← get_class cNotProxy;
  set_class cProxy c;;
  d ← get___dict__ cNotProxy;
  set___dict__ cProxy d;;
  ret (VObj cProxy).

Definition unjellyLCache (unjellier : Unjellier.t) (unjellyList : list value)
    : M value :=
  luid ← index unjellyList 1;
  inv ← invoker_attr (Unjellier.invoker unjellier) "remotelyCachedForLUID";
  obj ← Broker.remotelyCachedForLUID inv luid;
  ret (VObj obj).

(** ** Well-formed heaps and scenarios *)

(** References, which have an identity: [None] and instances. *)
Definition is_ref (v : value) : bool :=
  match v with VNone | VObj _ => true | _ => false end.

(** Allocation is fresh: every address in use lies below [next], and the
    [__dict__] of every instance is allocated. *)
Definition heap_ok (w : world) : Prop :=
  map_Forall (λ a o, (a < next w)%positive ∧ is_Some (dicts w !! dict_ o)) (objs w)
  ∧ map_Forall (λ d _, (d < next w)%positive) (dicts w).

#[global] Instance heap_ok_dec w : Decision (heap_ok w).
Proof. unfold heap_ok. apply _. Defined.

(** A broker as constructed: no perspective, empty tables. *)
Definition newBroker : Broker := mkBroker VNone 0 ∅ ∅ ∅ ∅ ∅ [].

Definition empty_world : world :=
  mkWorld ∅ ∅ 1%positive (λ _, newBroker) [].

(** A small jellier: dictionaries become [["dictionary", [k, v], ...]],
    other values are atoms; s-expressions are returned as lists. *)
Definition jelly_dict (v : value) : M value :=
  match v with
  | VDict d =>
      m ← get_dict d;
      ret (VList (VStr "dictionary" ::
                  ((λ kv, VList [VStr kv.1; kv.2]) <$> map_to_list m)))
  | _ => ret v
  end.

Definition unjelly_pair (v : value) : option (string * value) :=
  match v with
  | VList [VStr k; x] => Some (k, x)
  | _ => None
  end.

Definition unjelly_dict (v : value) : M value :=
  match v with
  | VList (VStr "dictionary" :: kvs) =>
      d ← new_dict (list_to_map (omap unjelly_pair kvs));
      ret (VDict d)
  | _ => ret v
  end.

Definition demo_jellier (inv : option conn) : Jellier.t :=
  Jellier.mk inv jelly_dict (λ _, ret []) (λ _ l, ret (VList l))
    (λ self, d ← get___dict__ self; jelly_dict (VDict d)).

Definition demo_unjellier (inv : option conn) : Unjellier.t :=
  Unjellier.mk inv unjelly_dict (λ self _, ret (VObj self)).

(** No user-defined constructor, the inherited [setCopyableState]. *)
Definition no_overrides : Subclasses := mkSubclasses (λ _, None) (λ _, None).

(** The inherited hooks only. *)
Definition no_hooks : Overrides :=
  mkOverrides (λ _, None) (λ _, None) (λ _, None) (λ _, None) (λ _, None).

(** Serialize the same object [n] times in a row. *)
Fixpoint jellyFor_times (O : Overrides) (n : nat) (self : addr)
    (jellier : Jellier.t) : M (list value) :=
  match n with
  | 0%nat => ret []
  | S n =>
      r ← Cacheable.jellyFor O self jellier;
      rs ← jellyFor_times O n self jellier;
      ret (r :: rs)
  end.

(** Run the finalizer of the same object [n] times in a row. *)
Fixpoint finalize_times (n : nat) (self : addr) : M unit :=
  match n with
  | O => ret tt
  | S n => RemoteCache.__del__ self;; finalize_times n self
  end.

Definition perspective_class : pyclass := PyClass "pkg.Perspective" FPlain.
Definition viewable_class : pyclass := PyClass "pkg.V" FViewable.
Definition cacheable_class : pyclass := PyClass "pkg.A" FCacheable.
Definition remotecache_class : pyclass := PyClass "pkg.A" FRemoteCache.

(** A perspective at address 2, an object at address 4, and two ViewPoints
    over them constructed one after the other, at addresses 6 and 8. *)
Definition two_viewpoints : world :=
  world_of ((p ← new_instance perspective_class;
             o ← new_instance viewable_class;
             new_ViewPoint (VObj p) (VObj o);;
             new_ViewPoint (VObj p) (VObj o)) empty_world).

(** [m] never fails with the exception [e]. *)
Definition avoids (e : exn) {A} (m : M A) : Prop :=
  ∀ w w', m w ≠ Raise e w'.

(** A Viewable at address 2; the broker of connection 1 serializes for no
    perspective. *)
Definition viewable_world : world :=
  world_of (new_instance viewable_class empty_world).

(** The state in which [RemoteCache.unjellyFor] has built [cProxy], at the
    address after [next w], over the class and the dictionary of [self],
    where [o] is [self] and [m] the contents of its dictionary on entry. *)
Definition prelude_world (c : conn) (o : instance) (m : gmap string value)
    (luid : value) (w : world) : world :=
  mkWorld (<[Pos.succ (next w) := Instance (cls o) (dict_ o)]> (objs w))
          (<[next w := ∅]>
             (<[dict_ o := <["luid" := luid]> (<["broker" := VBroker c]> m)]> (dicts w)))
          (Pos.succ (Pos.succ (next w))) (brokers w) (logged w).

(** The s-expression received for a cached [pkg.A] with LUID 1 and state
    [{x: 1}]. *)
Definition full_cache_sexp : list value :=
  [VStr "pkg.A"; VInt 1; VList [VStr "dictionary"; VList [VStr "x"; VInt 1]]].

(** The unjellier has made an empty instance of the class registered for
    [pkg.A], at address 2. *)
Definition fresh_proxy_world : world :=
  world_of (new_instance remotecache_class empty_world).

(** The full state has been received on connection 1. *)
Definition received_world : world :=
  world_of (RemoteCache.unjellyFor no_overrides 2%positive
              (demo_unjellier (Some 1%positive)) full_cache_sexp
              fresh_proxy_world).

(** A second empty instance, for a second reception. *)
Definition received_again_world : world :=
  world_of (new_instance remotecache_class received_world).

(** [self] is the entry of the incoming cache of [c] under the LUID [n]. *)
Definition registered_locally (c : conn) (n : Z) (self : addr) (w : world)
    : Prop :=
  Broker.lookupIncoming (brokers w c) n = Some self.

(** [self], which is the instance [o] with an allocated [__dict__], both
    below the allocator, is in the outgoing cache of [c] under the LUID
    [L]. *)
Definition registered_remotely (c : conn) (self : addr) (o : instance)
    (L : Z) (w : world) : Prop :=
  objs w !! self = Some o
  ∧ is_Some (dicts w !! dict_ o)
  ∧ (self < next w)%positive ∧ (dict_ o < next w)%positive
  ∧ remotelyCachedLUIDs (brokers w c) !! inl (Z.pos self) = Some L.

(** [P] holds again in the state [m] leaves, whether it returns or
    raises. *)
Definition keeps (P : world → Prop) {A} (m : M A) : Prop :=
  ∀ w, P w → P (world_of (m w)).

(** A jellier that cannot serialize the state it is given. *)
Definition failing_jellier (inv : option conn) : Jellier.t :=
  Jellier.mk inv (λ _, raise (TypeError "cannot jelly"))
    (λ _, ret []) (λ _ l, ret (VList l))
    (λ _, raise (TypeError "cannot jelly")).

(** A class that sends its instances under the name of the class the peer
    has for them. *)
Definition renaming_hooks : Overrides :=
  mkOverrides (λ _, None) (λ _, None)
    (λ _, Some (λ _, ret (VStr "pkg.RemoteA"))) (λ _, None) (λ _, None).

(** A Cacheable [pkg.A] at address 2, with state [{x: 1}]. *)
Definition cacheable_world : world :=
  world_of ((a ← new_instance cacheable_class;
             setattr a "x" (VInt 1)) empty_world).

(** [m], guarded by the assertion that [self] is registered under [n]. *)
Definition assert_registered (c : conn) (n : Z) (self : addr) {A} (m : M A)
    : M A :=
  λ w, if decide (Broker.lookupIncoming (brokers w c) n = Some self) then m w
       else Raise (AssertionError "the proxy is not registered") w.

(** The unjellier and the [setCopyableState] of the scenario, asserting on
    entry that the instance at address 2 is registered under LUID 1 on
    connection 1. *)
Definition checked_unjelly (v : value) : M value :=
  assert_registered 1%positive 1 2%positive (unjelly_dict v).

Definition checked_setCopyableState (k : pyclass)
    : option (addr → value → M unit) :=
  Some (λ x v, assert_registered 1%positive 1 2%positive
                 (RemoteCopy.setCopyableState x v)).


(** ** Reverse calls and message dispatch *)

(** What this module calls on a broker beyond its cache tables.  A method
    handed to [serialize] is named, not passed. *)
Record Peer := mkPeer {
  _sendMessage : conn → string → value → Z → value → value → value → M value;
  unserialize : conn → value → value → M value;
  serialize : conn → value → value → option (string * value * value) → M value
}.

(** The methods that classes written by users define, by class and name. *)
Definition methods : Type :=
  pyclass → string → option (addr → list value → value → M value).

(** What [getattr] finds under a name: a method of the class, bound to the
    instance, or a value. *)
Inductive attribute :=
| BoundMethod (name : string) (f : addr → list value → value → M value)
    (self : addr)
| Data (v : value).

(** [getattr(a, name)] where a method is looked for. *)
Definition getattr_method (ms : methods) (a : addr) (name : string)
    : M attribute :=
  o ← get_obj a;
  m ← get_dict (dict_ o);
  match m !! name with
  | Some v => ret (Data v)
  | None =>
      match ms (cls o) name with
      | Some f => ret (BoundMethod name f a)
      | None =>
          match class_attr (cflavor (cls o)) name with
          | Some v => ret (Data v)
          | None => raise (AttributeError name)
          end
      end
  end.

(** [apply(method, args, kw)] *)
Definition py_apply (method : attribute) (args kw : value) : M value :=
  match method with
  | Data _ => raise (TypeError "object is not callable")
  | BoundMethod _ f self =>
      match args with
      | VTuple l | VList l =>
          match kw with
          | VDict _ => f self l kw
          | _ => raise (TypeError "apply() arg 3 must be a dictionary")
          end
      | _ => raise (TypeError "apply() arg 2 must be a sequence")
      end
  end.

(** [print]: standard output is not part of the state. *)
Definition print_ (s : string) : M unit := ret tt.

(** [except TypeError: print ...; raise] *)
Definition didnt_accept (e : exn) : M value :=
  match e with
  | TypeError _ => print_ "didn't accept";; raise e
  | _ => raise e
  end.

(** [(p,) + args] *)
Definition tuple_cons (p : value) (args : value) : M value :=
  match args with
  | VTuple l => ret (VTuple (p :: l))
  | _ => raise (TypeError "can only concatenate tuple to tuple")
  end.

Definition method_name (method : attribute) : string :=
  match method with
  | BoundMethod name _ _ => name
  | Data _ => ""
  end.

(** [Referenceable.remoteMessageReceived]: dispatch to [remote_messagename]. *)
Definition Referenceable_remoteMessageReceived (P : Peer) (ms : methods)
    (self : addr) (broker : conn) (message : string) (args kw : value)
    : M value :=
  args ← unserialize P broker args VNone;
  kw ← unserialize P broker kw VNone;
  method ← getattr_method ms self ("remote_" +:+ message);
  state ← try_except (py_apply method args kw) didnt_accept;
  p ← getattr self "perspective";
  serialize P broker state p None.

(** [ViewPoint.remoteMessageReceived]: dispatch to [view_messagename] on my
    object, with my perspective as the first argument. *)
Definition ViewPoint_remoteMessageReceived (P : Peer) (ms : methods)
    (self : addr) (broker : conn) (message : string) (args kw : value)
    : M value :=
  p ← getattr self "perspective";
  args ← unserialize P broker args p;
  p ← getattr self "perspective";
  kw ← unserialize P broker kw p;
  obj ← getattr self "object";
  method ← match obj with
           | VObj a => getattr_method ms a ("view_" +:+ message)
           | _ => raise (AttributeError ("view_" +:+ message))
           end;
  state ← try_except
            (p ← getattr self "perspective";
             pargs ← tuple_cons p args;
             py_apply method pargs kw)
            didnt_accept;
  p ← getattr self "perspective";
  serialize P broker state p (Some (method_name method, args, kw)).

(** [RemoteCache.remoteMessageReceived]: dispatch to [observe_messagename]. *)
Definition RemoteCache_remoteMessageReceived (P : Peer) (ms : methods)
    (self : addr) (broker : conn) (message : string) (args kw : value)
    : M value :=
  args ← unserialize P broker args VNone;
  kw ← unserialize P broker kw VNone;
  method ← getattr_method ms self ("observe_" +:+ message);
  state ← try_except (py_apply method args kw) didnt_accept;
  serialize P broker state VNone (Some (method_name method, args, kw)).

(** [v.attr] on what should be a broker. *)
Definition as_broker (v : value) (attr : string) : M conn :=
  match v with
  | VBroker c => ret c
  | _ => raise (AttributeError attr)
  end.

(** [broker.cachedRemotelyAs(cached)] for the values held by an observer. *)
Definition cachedRemotelyAs_value (broker cached : value) : M (option Z) :=
  c ← as_broker broker "cachedRemotelyAs";
  match cached with
  | VObj a => Broker.cachedRemotelyAs c a false
  | _ => raise (AttributeError "processUniqueID")
  end.

Definition not_yet_given : exn :=
  ProtocolError
    "You can't call a cached method when the object hasn't been given to the peer yet.".

Definition RemoteCacheMethod_class : pyclass :=
  PyClass "twisted.spread.flavors.RemoteCacheMethod" FPlain.

Module RemoteCacheMethod.
Definition __init__ (self : addr) (name : string)
    (broker cached perspective : value) : M unit :=
  setattr self "name" (VStr name);;
  setattr self "broker" broker;;
  setattr self "perspective" perspective;;
  setattr self "cached" cached.

(** (internal) action method. *)
Definition __call__ (P : Peer) (self : addr) (args kw : value) : M value :=
  b ← getattr self "broker";
  cached ← getattr self "cached";
  cacheID ← cachedRemotelyAs_value b cached;
  match cacheID with
  | None => raise not_yet_given
  | Some cacheID =>
      b ← getattr self "broker";
      c ← as_broker b "_sendMessage";
      p ← getattr self "perspective";
      name ← getattr self "name";
      _sendMessage P c "cache" p cacheID name args kw
  end.
End RemoteCacheMethod.

(** [RemoteCacheMethod(name, broker, cached, perspective)] *)
Definition new_RemoteCacheMethod (name : string)
    (broker cached perspective : value) : M addr :=
  m ← new_instance RemoteCacheMethod_class;
  RemoteCacheMethod.__init__ m name broker cached perspective;;
  ret m.

Module RemoteCacheObserver.
(** A hash for this broker/perspective/cached triplet, over the [hash]
    builtin. *)
Definition __hash__ (hash : value → Z) (self : addr) : M Z :=
  b ← getattr self "broker";
  p ← getattr self "perspective";
  c ← getattr self "cached";
  ret (hash b `mod` 2 ^ 10 + hash p `mod` 2 ^ 10 + hash c `mod` 2 ^ 10).

(** (internal) action method. *)
Definition callRemote (P : Peer) (self : addr) (name : string)
    (args kw : value) : M value :=
  b ← getattr self "broker";
  cached ← getattr self "cached";
  cacheID ← cachedRemotelyAs_value b cached;
  match cacheID with
  | None => raise not_yet_given
  | Some cacheID =>
      b ← getattr self "broker";
      c ← as_broker b "_sendMessage";
      p ← getattr self "perspective";
      _sendMessage P c "cache" p cacheID (VStr name) args kw
  end.

(** Get a RemoteMethod for this key. *)
Definition remoteMethod (self : addr) (key : string) : M addr :=
  b ← getattr self "broker";
  cached ← getattr self "cached";
  p ← getattr self "perspective";
  new_RemoteCacheMethod key b cached p.
End RemoteCacheObserver.

Module Root.
(** A BrokerFactory is requesting to publish me as a root object. *)
Definition rootObject (self : addr) (broker : conn) : M value :=
  ret (VObj self).
End Root.

(** ** More scenarios *)

Definition remotecopy_class : pyclass := PyClass "pkg.C" FRemoteCopy.

(** An instance of a copier at address 2 that already holds [old = 0]. *)
Definition copy_world : world :=
  world_of ((a ← new_instance remotecopy_class;
             setattr a "old" (VInt 0)) empty_world).

(** The s-expression received for a copied [pkg.C] with state [{x: 1}]. *)
Definition copy_sexp : list value :=
  [VStr "pkg.C"; VList [VStr "dictionary"; VList [VStr "x"; VInt 1]]].

Definition copied_state : gmap string value := {["x" := VInt 1]}.

(** A Cacheable at address 2 and two observers of it for connection 1 and no
    perspective, at addresses 4 and 6. *)
Definition two_observers : world :=
  world_of ((a ← new_instance cacheable_class;
             new_RemoteCacheObserver 1%positive a VNone;;
             new_RemoteCacheObserver 1%positive a VNone) empty_world).

(** The attributes of either observer. *)
Definition observer_dict : gmap string value :=
  <["perspective" := VNone]>
    (<["cached" := VObj 2%positive]> (<["broker" := VBroker 1%positive]> ∅)).

(** A [hash] builtin for the scenarios. *)
Definition demo_hash (v : value) : Z :=
  match v with
  | VObj a => Z.pos a
  | VBroker c => Z.pos c + 4096
  | _ => 0
  end.

(** A peer that answers a message by the message itself and neither
    serializes nor unserializes. *)
Definition demo_peer : Peer :=
  mkPeer (λ c tag p L name args kw,
            ret (VTuple [VStr tag; p; VInt L; name; args; kw]))
         (λ _ v _, ret v) (λ _ v _ _, ret v).

(** A class table with one handler per prefix. *)
Definition demo_methods : methods :=
  λ _ name,
    if decide (name = "remote_ping") then Some (λ _ l _, ret (VTuple l))
    else if decide (name = "view_ping") then Some (λ _ l _, ret (VTuple l))
    else if decide (name = "observe_ping") then Some (λ _ l _, ret (VTuple l))
    else None.

(** A class table whose [remote_ping] rejects its arguments. *)
Definition strict_methods : methods :=
  λ _ name,
    if decide (name = "remote_ping")
    then Some (λ _ _ _, raise (TypeError "takes no arguments"))
    else None.

(** A release path that fails: the broker has no such LUID any more. *)
Definition failing_decCacheRef (c : conn) (luid : value) : M unit :=
  raise UnknownLocalId.

Definition referenceable_class : pyclass := PyClass "pkg.R" FReferenceable.

(** A Referenceable at address 2. *)
Definition referenceable_world : world :=
  world_of (new_instance referenceable_class empty_world).

(** A class table whose only method handles [ping] under one prefix. *)
Definition demo_methods_only (prefix : string) : methods :=
  λ _ name,
    if decide (name = prefix +:+ "ping") then Some (λ _ l _, ret (VTuple l))
    else None.

(** * Properties *)

(** ** Running the monad *)

Lemma bind_Ok {A B} (m : M A) (k : A → M B) w a w' :
  m w = Ok a w' → (m ≫= k) w = k a w'.
Proof. intros H. unfold mbind, M_bind, bind. by rewrite H. Qed.

Lemma bind_Raise {A B} (m : M A) (k : A → M B) w e w' :
  m w = Raise e w' → (m ≫= k) w = Raise e w'.
Proof. intros H. unfold mbind, M_bind, bind. by rewrite H. Qed.

Lemma bind_inv_Ok {A B} (m : M A) (k : A → M B) w b w2 :
  (m ≫= k) w = Ok b w2 → ∃ a w1, m w = Ok a w1 ∧ k a w1 = Ok b w2.
Proof.
  unfold mbind, M_bind, bind. destruct (m w) as [a w1|e w1]; [eauto | done].
Qed.

Lemma get_obj_Ok a o w : objs w !! a = Some o → get_obj a w = Ok o w.
Proof. intros H. unfold get_obj. by rewrite H. Qed.

Lemma get_dict_Ok d m w : dicts w !! d = Some m → get_dict d w = Ok m w.
Proof. intros H. unfold get_dict. by rewrite H. Qed.

Lemma get_class_Ok a o w : objs w !! a = Some o → get_class a w = Ok (cls o) w.
Proof. intros H. unfold get_class. by rewrite (bind_Ok _ _ _ _ _ (get_obj_Ok _ _ _ H)). Qed.

Lemma get___dict___Ok a o w :
  objs w !! a = Some o → get___dict__ a w = Ok (dict_ o) w.
Proof. intros H. unfold get___dict__. by rewrite (bind_Ok _ _ _ _ _ (get_obj_Ok _ _ _ H)). Qed.

Lemma getattr_dict a o m name v w :
  objs w !! a = Some o → dicts w !! dict_ o = Some m → m !! name = Some v →
  getattr a name w = Ok v w.
Proof.
  intros Ho Hm Hv. unfold getattr.
  rewrite (bind_Ok _ _ _ _ _ (get_obj_Ok _ _ _ Ho)).
  rewrite (bind_Ok _ _ _ _ _ (get_dict_Ok _ _ _ Hm)).
  by rewrite Hv.
Qed.

Lemma setattr_Ok a o m name v w :
  objs w !! a = Some o → dicts w !! dict_ o = Some m →
  setattr a name v w = Ok tt (set_dicts (insert (dict_ o) (<[name := v]> m)) w).
Proof.
  intros Ho Hm. unfold setattr.
  rewrite (bind_Ok _ _ _ _ _ (get_obj_Ok _ _ _ Ho)).
  by rewrite (bind_Ok _ _ _ _ _ (get_dict_Ok _ _ _ Hm)).
Qed.

(** ** Identity of a ViewPoint *)

Lemma id_ref v w : is_ref v = true → ∃ i, id v w = Ok i w.
Proof. destruct v; try done; simpl; eauto. Qed.

Lemma id_inj v1 v2 w w1 w2 i :
  is_ref v1 = true → is_ref v2 = true →
  id v1 w = Ok i w1 → id v2 w = Ok i w2 → v1 = v2.
Proof.
  destruct v1, v2; try done; simpl; unfold mret, M_ret, ret;
    intros _ _ H1 H2; congruence.
Qed.

(** C6. The identity key of a ViewPoint is the pair made of the identity of
    its perspective and the identity of its object: two ViewPoints, however
    they were constructed, have the same key exactly when they hold the
    identically-same perspective and the identically-same object. *)
Theorem ViewPoint_processUniqueID_pair (w : world) (vp1 vp2 : addr)
    (p1 o1 p2 o2 : value) :
  is_ref p1 = true → is_ref o1 = true → is_ref p2 = true → is_ref o2 = true →
  getattr vp1 "perspective" w = Ok p1 w → getattr vp1 "object" w = Ok o1 w →
  getattr vp2 "perspective" w = Ok p2 w → getattr vp2 "object" w = Ok o2 w →
  ∃ i1 j1 i2 j2,
    id p1 w = Ok i1 w ∧ id o1 w = Ok j1 w ∧
    id p2 w = Ok i2 w ∧ id o2 w = Ok j2 w ∧
    ViewPoint.processUniqueID vp1 w = Ok (inr (i1, j1)) w ∧
    ViewPoint.processUniqueID vp2 w = Ok (inr (i2, j2)) w ∧
    ((inr (i1, j1) : Z + Z * Z) = inr (i2, j2) ↔ p1 = p2 ∧ o1 = o2).
Proof.
  intros Rp1 Ro1 Rp2 Ro2 Hp1 Ho1 Hp2 Ho2.
  destruct (id_ref p1 w Rp1) as [i1 Hi1], (id_ref o1 w Ro1) as [j1 Hj1].
  destruct (id_ref p2 w Rp2) as [i2 Hi2], (id_ref o2 w Ro2) as [j2 Hj2].
  exists i1, j1, i2, j2. split_and!; try done.
  - unfold ViewPoint.processUniqueID.
    rewrite (bind_Ok _ _ _ _ _ Hp1), (bind_Ok _ _ _ _ _ Ho1).
    by rewrite (bind_Ok _ _ _ _ _ Hi1), (bind_Ok _ _ _ _ _ Hj1).
  - unfold ViewPoint.processUniqueID.
    rewrite (bind_Ok _ _ _ _ _ Hp2), (bind_Ok _ _ _ _ _ Ho2).
    by rewrite (bind_Ok _ _ _ _ _ Hi2), (bind_Ok _ _ _ _ _ Hj2).
  - split.
    + intros [= -> ->]. split; eapply id_inj; eauto.
    + intros [-> ->]. congruence.
Qed.

Lemma ViewPoint_processUniqueID_pair_witness :
  ∃ i1 j1 i2 j2,
    id (VObj 2%positive) two_viewpoints = Ok i1 two_viewpoints ∧
    id (VObj 4%positive) two_viewpoints = Ok j1 two_viewpoints ∧
    id (VObj 2%positive) two_viewpoints = Ok i2 two_viewpoints ∧
    id (VObj 4%positive) two_viewpoints = Ok j2 two_viewpoints ∧
    ViewPoint.processUniqueID 6%positive two_viewpoints = Ok (inr (i1, j1)) two_viewpoints ∧
    ViewPoint.processUniqueID 8%positive two_viewpoints = Ok (inr (i2, j2)) two_viewpoints ∧
    ((inr (i1, j1) : Z + Z * Z) = inr (i2, j2) ↔ VObj 2%positive = VObj 2%positive ∧ VObj 4%positive = VObj 4%positive).
Proof.
  apply (ViewPoint_processUniqueID_pair two_viewpoints 6%positive 8%positive
           (VObj 2%positive) (VObj 4%positive) (VObj 2%positive) (VObj 4%positive)); vm_compute; reflexivity.
Defined.

(** Separately constructed ViewPoints over one pair are distinct objects for
    [Serializable.processUniqueID], and one for [ViewPoint.processUniqueID]. *)
Example two_viewpoints_keys :
  Serializable.processUniqueID 6%positive two_viewpoints = Ok (inl 6) two_viewpoints ∧
  Serializable.processUniqueID 8%positive two_viewpoints = Ok (inl 8) two_viewpoints ∧
  processUniqueID 6%positive two_viewpoints = Ok (inr (2, 4)) two_viewpoints ∧
  processUniqueID 8%positive two_viewpoints = Ok (inr (2, 4)) two_viewpoints.
Proof. vm_compute. done. Qed.

(** ** Serializing without a broker *)

(** C10. Under a jellier that carries no broker, a Copyable, a Cacheable and
    a RemoteCache all serialize as [getInstanceState] makes them, result and
    final state alike: the tables of no broker are read or written by the
    flavor, no LUID is allocated, no tag is added. *)
Theorem jellyFor_without_invoker (O : Overrides) (self : addr)
    (jelly : value → M value)
    (prepare : addr → M (list value)) (preserve : addr → list value → M value)
    (getInstanceState : addr → M value) (w : world) :
  let jellier := Jellier.mk None jelly prepare preserve getInstanceState in
  Copyable.jellyFor O self jellier w = getInstanceState self w
  ∧ Cacheable.jellyFor O self jellier w = getInstanceState self w
  ∧ RemoteCache.jellyFor self jellier w = getInstanceState self w.
Proof. by split_and!. Qed.

(** ** Viewable *)

Lemma avoids_ret e {A} (a : A) : avoids e (mret a).
Proof. by intros w w'. Qed.

Lemma avoids_raise e e' {A} : e' ≠ e → avoids e (raise (A := A) e').
Proof. intros Hne w w' [= ? ?]. done. Qed.

Lemma avoids_bind e {A B} (m : M A) (k : A → M B) :
  avoids e m → (∀ a, avoids e (k a)) → avoids e (m ≫= k).
Proof.
  intros Hm Hk w w'. unfold mbind, M_bind, bind.
  destruct (m w) as [a w1|e1 w1] eqn:E.
  - apply Hk.
  - intros [= -> ->]. by apply (Hm w w').
Qed.

Lemma avoids_get_world e : avoids e get_world.
Proof. by intros w w'. Qed.

Lemma avoids_put_world e w0 : avoids e (put_world w0).
Proof. by intros w w'. Qed.

Lemma avoids_fresh e : avoids e fresh.
Proof. by intros w w'. Qed.

Lemma avoids_get_obj e a : (∀ x, e ≠ Dangling x) → avoids e (get_obj a).
Proof.
  intros He w w'. unfold get_obj. destruct (objs w !! a); [done|].
  intros [= <- _]. by eapply He.
Qed.

Lemma avoids_get_dict e d : (∀ x, e ≠ Dangling x) → avoids e (get_dict d).
Proof.
  intros He w w'. unfold get_dict. destruct (dicts w !! d); [done|].
  intros [= <- _]. by eapply He.
Qed.

Create HintDb avoids.
#[local] Hint Resolve avoids_ret avoids_bind avoids_get_world avoids_put_world
  avoids_fresh avoids_get_obj avoids_get_dict : avoids.
#[local] Hint Extern 1 (avoids _ (raise _)) =>
  apply avoids_raise; discriminate : avoids.
#[local] Hint Extern 1 (∀ x, _ ≠ Dangling x) => discriminate : avoids.

Ltac avoids_step :=
  match goal with
  | |- avoids _ (match ?x with _ => _ end) => destruct x
  | |- avoids _ (if ?x then _ else _) => destruct x
  | |- avoids _ (_ ≫= _) => apply avoids_bind; [|intros ?]
  | |- avoids _ _ => solve [auto with avoids]
  end.

Lemma avoids_getattr e a name :
  (∀ x, e ≠ Dangling x) → (∀ x, e ≠ AttributeError x) → avoids e (getattr a name).
Proof.
  intros H1 H2. unfold getattr. repeat avoids_step.
  apply avoids_raise. by intros <-; eapply H2.
Qed.

Lemma avoids_setattr e a name v :
  (∀ x, e ≠ Dangling x) → avoids e (setattr a name v).
Proof. intros H1. unfold setattr. repeat avoids_step. Qed.

Lemma avoids_new_instance e c : avoids e (new_instance c).
Proof. unfold new_instance, new_dict. repeat avoids_step. Qed.

Lemma avoids_id e v : (∀ x, e ≠ TypeError x) → avoids e (id v).
Proof.
  intros H. destruct v; simpl; auto with avoids;
    apply avoids_raise; by intros <-; eapply H.
Qed.

Lemma avoids_processUniqueID a :
  avoids CannotViewWithoutContext (processUniqueID a).
Proof.
  unfold processUniqueID, ViewPoint.processUniqueID,
    Serializable.processUniqueID, get_class.
  repeat first
    [ apply avoids_getattr; discriminate
    | apply avoids_id; discriminate
    | avoids_step ].
Qed.

Lemma avoids_registerReference c a :
  avoids CannotViewWithoutContext (Broker.registerReference c a).
Proof.
  unfold Broker.registerReference, Broker.newLocalID, Broker.get, Broker.put.
  repeat first [ apply avoids_processUniqueID | avoids_step ].
Qed.

Lemma avoids_Referenceable_jellyFor a j :
  avoids CannotViewWithoutContext (Referenceable.jellyFor a j).
Proof.
  unfold Referenceable.jellyFor, invoker_attr.
  repeat first [ apply avoids_registerReference | avoids_step ].
Qed.

(** The claim of C5 fails where no perspective is set: with the broker's
    [serializingPerspective] at [None], a Viewable is sent as a reference to
    [ViewPoint(None, V)]; with no broker at all the failure is an
    [AttributeError]. *)
Lemma Viewable_jellyFor_without_perspective :
  serializingPerspective (brokers viewable_world 1%positive) = VNone
  ∧ (∃ w', Viewable.jellyFor 2%positive (demo_jellier (Some 1%positive))
             viewable_world = Ok (VTuple [VStr "remote"; VInt 1]) w')
  ∧ Viewable.jellyFor 2%positive (demo_jellier None) viewable_world
    = Raise (AttributeError "serializingPerspective") viewable_world.
Proof.
  split_and!; [done| |done]. eexists. vm_compute. reflexivity.
Qed.

(** C5, amended. Under a jellier for a broker, a Viewable serializes exactly
    as [ViewPoint(P, V)] does under the same jellier, [P] being the broker's
    serializing perspective, [None] included; and under no jellier does it
    fail with CannotViewWithoutContext. *)
Theorem Viewable_jellyFor_as_ViewPoint (self : addr) (c : conn)
    (jelly : value → M value) (prepare : addr → M (list value))
    (preserve : addr → list value → M value)
    (getInstanceState : addr → M value) (w : world) :
  let jellier := Jellier.mk (Some c) jelly prepare preserve getInstanceState in
  Viewable.jellyFor self jellier w
  = (new_ViewPoint (serializingPerspective (brokers w c)) (VObj self)
       ≫= λ vp, Referenceable.jellyFor vp jellier) w
  ∧ ∀ j, avoids CannotViewWithoutContext (Viewable.jellyFor self j).
Proof.
  split; [done|]. intros j.
  unfold Viewable.jellyFor, invoker_attr, Broker.get, new_ViewPoint,
    ViewPoint.__init__.
  repeat first
    [ apply avoids_Referenceable_jellyFor
    | apply avoids_new_instance
    | apply avoids_setattr; discriminate
    | avoids_step ].
Qed.

(** ** The receiving side *)

Lemma new_instance_Ok c w :
  new_instance c w = Ok (Pos.succ (next w))
    (mkWorld (<[Pos.succ (next w) := Instance c (next w)]> (objs w))
             (<[next w := ∅]> (dicts w))
             (Pos.succ (Pos.succ (next w))) (brokers w) (logged w)).
Proof. reflexivity. Qed.

Lemma heap_ok_obj w a o :
  heap_ok w → objs w !! a = Some o →
  (a < next w)%positive ∧ is_Some (dicts w !! dict_ o).
Proof. intros [H _] Ho. exact (H a o Ho). Qed.

Lemma heap_ok_dict w d m :
  heap_ok w → dicts w !! d = Some m → (d < next w)%positive.
Proof. intros [_ H] Hd. exact (H d m Hd). Qed.

(** C2. On a connection whose incoming cache holds no entry for [n],
    reconstructing [("cached", n)] fails with UnknownLocalId, in the state it
    started from: no proxy is returned and nothing is allocated. *)
Theorem unjellyCached_unknown_luid (c : conn) (unjelly : value → M value)
    (setInstanceState : addr → list value → M value)
    (tag : value) (n : Z) (rest : list value) (w : world) :
  Broker.lookupIncoming (brokers w c) n = None →
  unjellyCached (Unjellier.mk (Some c) unjelly setInstanceState)
    (tag :: VInt n :: rest) w = Raise UnknownLocalId w.
Proof.
  intros H. unfold unjellyCached. simpl.
  unfold Broker.cachedLocallyAs, Broker.get.
  unfold mbind, M_bind, bind, mret, M_ret, ret, get_world. simpl. by rewrite H.
Qed.


Lemma unjellyCached_unknown_luid_witness :
  unjellyCached (demo_unjellier (Some 1%positive)) [VStr "cached"; VInt 7]
    received_world = Raise UnknownLocalId received_world.
Proof.
  apply (unjellyCached_unknown_luid 1%positive unjelly_dict
           (λ self _, ret (VObj self)) (VStr "cached") 7 [] received_world).
  vm_compute. reflexivity.
Defined.

Lemma unjellyFor_prelude (U : Subclasses) (self : addr) (c : conn)
    (unjelly : value → M value) (sis : addr → list value → M value)
    (ty luid : value) (st : list value) (w : world) (o : instance)
    (m : gmap string value) :
  heap_ok w → objs w !! self = Some o → dicts w !! dict_ o = Some m →
  RemoteCache.unjellyFor U self (Unjellier.mk (Some c) unjelly sis)
    (ty :: luid :: st) w
  = ((match init_of U (cls o) with
      | Some init => init (Pos.succ (next w))
      | None => mret tt
      end) ≫= λ _,
     index (ty :: luid :: st) 1 ≫= λ luid0,
     Broker.cacheLocally c luid0 self ≫= λ _,
     index (ty :: luid :: st) 2 ≫= λ j,
     unjelly j ≫= λ state,
     RemoteCopy.call_setCopyableState U (Pos.succ (next w)) state ≫= λ _,
     get___dict__ (Pos.succ (next w)) ≫= λ d,
     set___dict__ self d ≫= λ _,
     setattr self "broker" (VBroker c) ≫= λ _,
     index (ty :: luid :: st) 1 ≫= λ luid1,
     setattr self "luid" luid1 ≫= λ _,
     mret (VObj (Pos.succ (next w)))) (prelude_world c o m luid w).
Proof.
  intros Hok Ho Hm.
  destruct (heap_ok_obj _ _ _ Hok Ho) as [Hlt _].
  pose proof (heap_ok_dict _ _ _ Hok Hm) as Hdlt.
  unfold RemoteCache.unjellyFor. simpl.
  rewrite (bind_Ok _ _ _ _ _ (setattr_Ok _ _ _ _ _ _ Ho Hm)).
  assert (self ≠ Pos.succ (next w)) as Hne by lia.
  assert (dict_ o ≠ next w) as Hdne by lia.
  erewrite bind_Ok by reflexivity.
  erewrite bind_Ok; last first.
  { eapply setattr_Ok; [exact Ho|]. simpl. apply lookup_insert_eq. }
  rewrite (bind_Ok _ _ _ _ _ (new_instance_Ok _ _)). simpl.
  erewrite bind_Ok; last first.
  { apply (get_class_Ok _ o). simpl. by rewrite lookup_insert_ne. }
  erewrite bind_Ok; last first.
  { unfold set_class. erewrite bind_Ok; last first.
    { apply get_obj_Ok. simpl. apply lookup_insert_eq. }
    reflexivity. }
  erewrite bind_Ok; last first.
  { apply (get___dict___Ok _ o). simpl. by rewrite !lookup_insert_ne. }
  erewrite bind_Ok; last first.
  { unfold set___dict__. erewrite bind_Ok; last first.
    { apply get_obj_Ok. simpl. apply lookup_insert_eq. }
    erewrite bind_Ok; last first.
    { apply get_dict_Ok. simpl. rewrite lookup_insert_ne by done.
      apply lookup_insert_eq. }
    reflexivity. }
  simpl. unfold set_objs, prelude_world. simpl.
  by rewrite !insert_insert_eq.
Qed.

(** C3. When the incoming cache of the connection already holds an entry
    for [n], receiving a full state under [n] fails with DuplicateCacheState
    and leaves the incoming cache as it was. *)
Theorem RemoteCache_unjellyFor_duplicate (U : Subclasses) (self : addr)
    (c : conn) (unjelly : value → M value)
    (setInstanceState : addr → list value → M value)
    (ty : value) (n : Z) (st : list value) (w : world) (o : instance) (a : addr) :
  heap_ok w → objs w !! self = Some o →
  (∀ init, init_of U (cls o) = Some init →
     ∀ x w1, ∃ w2, init x w1 = Ok tt w2 ∧ brokers w2 c = brokers w1 c) →
  Broker.lookupIncoming (brokers w c) n = Some a →
  ∃ w', RemoteCache.unjellyFor U self
          (Unjellier.mk (Some c) unjelly setInstanceState)
          (ty :: VInt n :: st) w = Raise DuplicateCacheState w'
        ∧ locallyCachedObjects (brokers w' c) = locallyCachedObjects (brokers w c).
Proof.
  intros Hok Ho Hinit Hdup.
  destruct (heap_ok_obj _ _ _ Hok Ho) as [_ [m Hm]].
  rewrite (unjellyFor_prelude _ _ _ _ _ _ _ _ _ _ _ Hok Ho Hm).
  set (w0 := prelude_world c o m (VInt n) w).
  assert (∃ w1, (match init_of U (cls o) with
                 | Some init => init (Pos.succ (next w))
                 | None => mret tt
                 end) w0 = Ok tt w1 ∧ brokers w1 c = brokers w c)
    as (w1 & Hrun & Hb).
  { destruct (init_of U (cls o)) as [init|] eqn:E.
    - destruct (Hinit init eq_refl (Pos.succ (next w)) w0) as (w2 & ? & ?).
      by exists w2.
    - by exists w0. }
  exists w1. rewrite (bind_Ok _ _ _ _ _ Hrun).
  erewrite bind_Ok by reflexivity.
  split; [|by rewrite Hb].
  apply bind_Raise. unfold Broker.cacheLocally.
  erewrite bind_Ok by reflexivity. by rewrite Hb, Hdup.
Qed.

Lemma RemoteCache_unjellyFor_duplicate_witness :
  ∃ w', RemoteCache.unjellyFor no_overrides 7%positive
          (demo_unjellier (Some 1%positive)) full_cache_sexp
          received_again_world = Raise DuplicateCacheState w'
        ∧ locallyCachedObjects (brokers w' 1%positive)
          = locallyCachedObjects (brokers received_again_world 1%positive).
Proof.
  apply (RemoteCache_unjellyFor_duplicate no_overrides 7%positive 1%positive
           unjelly_dict (λ self _, ret (VObj self)) (VStr "pkg.A") 1
           [VList [VStr "dictionary"; VList [VStr "x"; VInt 1]]]
           received_again_world (Instance remotecache_class 6%positive)
           2%positive).
  - apply (bool_decide_unpack _). vm_compute. exact I.
  - vm_compute. reflexivity.
  - intros init [=].
  - vm_compute. reflexivity.
Defined.

(** The claim of C4 fails on the identity of the result: the full state
    received for LUID 1 registers the instance at address 2 and returns the
    one at address 4; reconstructing [("cached", 1)] then returns a third
    instance, at address 7. *)
Lemma unjellyCached_returns_new_instance :
  RemoteCache.unjellyFor no_overrides 2%positive
    (demo_unjellier (Some 1%positive)) full_cache_sexp fresh_proxy_world
  = Ok (VObj 4%positive) received_world
  ∧ Broker.lookupIncoming (brokers received_world 1%positive) 1 = Some 2%positive
  ∧ ∃ w', unjellyCached (demo_unjellier (Some 1%positive))
            [VStr "cached"; VInt 1] received_world = Ok (VObj 7%positive) w'.
Proof.
  split_and!.
  - vm_compute. reflexivity.
  - vm_compute. reflexivity.
  - eexists. vm_compute. reflexivity.
Qed.

(** C4, amended. Reconstructing [("cached", n)] for a registered [n] returns
    a new instance, which has the class of the registered instance and the
    identically-same [__dict__], hence its hash; the registered instance, its
    dictionary and the tables of the broker are left as they were. *)
Theorem unjellyCached_shares_registered (c : conn) (unjelly : value → M value)
    (setInstanceState : addr → list value → M value)
    (tag : value) (n : Z) (rest : list value) (w : world)
    (a : addr) (o : instance) :
  heap_ok w →
  Broker.lookupIncoming (brokers w c) n = Some a →
  objs w !! a = Some o →
  ∃ w', unjellyCached (Unjellier.mk (Some c) unjelly setInstanceState)
          (tag :: VInt n :: rest) w = Ok (VObj (Pos.succ (next w))) w'
        ∧ objs w !! Pos.succ (next w) = None
        ∧ objs w' !! Pos.succ (next w) = Some (Instance (cls o) (dict_ o))
        ∧ objs w' !! a = Some o
        ∧ dicts w' !! dict_ o = dicts w !! dict_ o
        ∧ brokers w' = brokers w
        ∧ RemoteCache.__hash__ (Pos.succ (next w)) w'
          = RemoteCache.__hash__ a w'.
Proof.
  intros Hok Hin Ho.
  destruct (heap_ok_obj _ _ _ Hok Ho) as [Hlt [m Hm]].
  pose proof (heap_ok_dict _ _ _ Hok Hm) as Hdlt.
  assert (a ≠ Pos.succ (next w)) as Hne by lia.
  assert (dict_ o ≠ next w) as Hdne by lia.
  assert (objs w !! Pos.succ (next w) = None) as Hfresh.
  { destruct (objs w !! Pos.succ (next w)) as [o'|] eqn:E; [|done].
    destruct (heap_ok_obj _ _ _ Hok E). lia. }
  eexists. split.
  { unfold unjellyCached. simpl.
    erewrite bind_Ok by reflexivity.
    erewrite bind_Ok by reflexivity.
    erewrite bind_Ok; last first.
    { unfold Broker.cachedLocallyAs, Broker.get.
      erewrite bind_Ok by reflexivity. by rewrite Hin. }
    rewrite (bind_Ok _ _ _ _ _ (new_instance_Ok _ _)).
    erewrite bind_Ok; last first.
    { apply (get_class_Ok _ o). simpl. by rewrite lookup_insert_ne. }
    erewrite bind_Ok; last first.
    { unfold set_class. erewrite bind_Ok; last first.
      { apply get_obj_Ok. simpl. apply lookup_insert_eq. }
      reflexivity. }
    erewrite bind_Ok; last first.
    { apply (get___dict___Ok _ o). simpl. by rewrite !lookup_insert_ne. }
    erewrite bind_Ok; last first.
    { unfold set___dict__. erewrite bind_Ok; last first.
      { apply get_obj_Ok. simpl. apply lookup_insert_eq. }
      erewrite bind_Ok; last first.
      { apply (get_dict_Ok _ m). simpl. by rewrite lookup_insert_ne. }
      reflexivity. }
    reflexivity. }
  simpl. split_and!; try done.
  - by rewrite lookup_insert_eq.
  - by rewrite !lookup_insert_ne.
  - by rewrite lookup_insert_ne.
  - unfold RemoteCache.__hash__.
    erewrite (bind_Ok (get___dict__ (Pos.succ (next w)))); last first.
    { apply get___dict___Ok. simpl. apply lookup_insert_eq. }
    erewrite (bind_Ok (get___dict__ a)); last first.
    { apply (get___dict___Ok _ o). simpl. by rewrite !lookup_insert_ne. }
    reflexivity.
Qed.

Lemma unjellyCached_shares_registered_witness :
  ∃ w', unjellyCached (demo_unjellier (Some 1%positive))
          [VStr "cached"; VInt 1] received_world
        = Ok (VObj (Pos.succ (next received_world))) w'
        ∧ objs received_world !! Pos.succ (next received_world) = None
        ∧ objs w' !! Pos.succ (next received_world)
          = Some (Instance (cls (Instance remotecache_class 5%positive))
                    (dict_ (Instance remotecache_class 5%positive)))
        ∧ objs w' !! 2%positive = Some (Instance remotecache_class 5%positive)
        ∧ dicts w' !! dict_ (Instance remotecache_class 5%positive)
          = dicts received_world !! dict_ (Instance remotecache_class 5%positive)
        ∧ brokers w' = brokers received_world
        ∧ RemoteCache.__hash__ (Pos.succ (next received_world)) w'
          = RemoteCache.__hash__ 2%positive w'.
Proof.
  apply (unjellyCached_shares_registered 1%positive unjelly_dict
           (λ self _, ret (VObj self)) (VStr "cached") 1 [] received_world
           2%positive (Instance remotecache_class 5%positive)).
  - apply (bool_decide_unpack _). vm_compute. exact I.
  - vm_compute. reflexivity.
  - vm_compute. reflexivity.
Defined.

(** ** The finalizer *)

Lemma getattr_frame a name v w w' :
  objs w' = objs w → dicts w' = dicts w →
  getattr a name w = Ok v w → getattr a name w' = Ok v w'.
Proof.
  intros Ho Hd. unfold getattr, get_obj, get_dict.
  unfold mbind, M_bind, bind, mret, M_ret, ret, raise.
  rewrite Ho.
  destruct (objs w !! a) as [o|]; [|done].
  rewrite Hd.
  destruct (dicts w !! dict_ o) as [m|]; [|done].
  destruct (m !! name); [congruence|].
  destruct (class_attr _ _); [congruence|done].
Qed.

Lemma RemoteCache___del___armed self c l w :
  getattr self "broker" w = Ok (VBroker c) w →
  getattr self "luid" w = Ok l w →
  RemoteCache.__del__ self w
  = Ok tt (set_broker c
             (Broker.set_decached (decached (brokers w c) ++ [l]) (brokers w c)) w).
Proof.
  intros Hb Hl. unfold RemoteCache.__del__, RemoteCache.__del___calling, try_except.
  rewrite (bind_Ok _ _ _ _ _ Hb). simpl.
  rewrite (bind_Ok _ _ _ _ _ Hb).
  rewrite (bind_Ok _ _ _ _ _ Hl).
  reflexivity.
Qed.

Lemma RemoteCache___del___disarmed self w :
  getattr self "broker" w = Ok VNone w →
  RemoteCache.__del__ self w = Ok tt w.
Proof.
  intros Hb. unfold RemoteCache.__del__, RemoteCache.__del___calling, try_except.
  by rewrite (bind_Ok _ _ _ _ _ Hb).
Qed.

(** The claim of C8 fails when the release is attempted twice: the proxy
    returned for LUID 1, at address 4, notifies the broker on each run of its
    finalizer. *)
Lemma RemoteCache_finalizer_runs_twice :
  decached (brokers received_world 1%positive) = []
  ∧ ∃ w', finalize_times 2 4%positive received_world = Ok tt w'
          ∧ decached (brokers w' 1%positive) = [VInt 1; VInt 1].
Proof.
  split; [by vm_compute|]. eexists. split; vm_compute; reflexivity.
Qed.

(** C8, amended. Each run of the finalizer of a proxy whose [broker] is set
    calls [decCacheRef] on that broker once, with the [luid] of the proxy, and
    changes nothing else: [k] runs make [k] calls, the finalizer holds no
    guard against being run again.  Instances, dictionaries, the allocator,
    the log, the other tables of that broker and every other broker are as
    they were. *)
Theorem RemoteCache_finalize_times (self : addr) (c : conn) (l : value)
    (k : nat) (w : world) :
  getattr self "broker" w = Ok (VBroker c) w →
  getattr self "luid" w = Ok l w →
  ∃ w', finalize_times k self w = Ok tt w'
        ∧ objs w' = objs w ∧ dicts w' = dicts w ∧ next w' = next w
        ∧ logged w' = logged w
        ∧ brokers w' c
          = Broker.set_decached (decached (brokers w c) ++ replicate k l)
              (brokers w c)
        ∧ ∀ c', c' ≠ c → brokers w' c' = brokers w c'.
Proof.
  revert w. induction k as [|k IH]; intros w Hb Hl.
  - exists w. simpl. split_and!; try done.
    rewrite app_nil_r. by destruct (brokers w c).
  - simpl. rewrite (bind_Ok _ _ _ _ _ (RemoteCache___del___armed _ _ _ _ Hb Hl)).
    set (w1 := set_broker _ _ _).
    destruct (IH w1) as (w' & Hrun & Ho & Hd & Hn & Hlog & Hc & Hother).
    { by apply (getattr_frame _ _ _ w). }
    { by apply (getattr_frame _ _ _ w). }
    exists w'. split_and!; try done.
    + rewrite Hc. unfold w1. simpl. rewrite fn_lookup_insert. simpl.
      by rewrite <- app_assoc.
    + intros c' Hne. rewrite (Hother c' Hne). unfold w1. simpl.
      by rewrite fn_lookup_insert_ne.
Qed.

Lemma RemoteCache_finalize_times_witness :
  ∃ w', finalize_times 2 4%positive received_world = Ok tt w'
        ∧ objs w' = objs received_world ∧ dicts w' = dicts received_world
        ∧ next w' = next received_world
        ∧ logged w' = logged received_world
        ∧ brokers w' 1%positive
          = Broker.set_decached
              (decached (brokers received_world 1%positive)
               ++ replicate 2 (VInt 1))
              (brokers received_world 1%positive)
        ∧ ∀ c', c' ≠ 1%positive → brokers w' c' = brokers received_world c'.
Proof.
  apply (RemoteCache_finalize_times 4%positive 1%positive (VInt 1) 2
           received_world); vm_compute; reflexivity.
Defined.

(** ** Round trip of a cached proxy *)

Lemma get_obj_inv a o w w' :
  get_obj a w = Ok o w' → w' = w ∧ objs w !! a = Some o.
Proof. unfold get_obj. destruct (objs w !! a); [|done]. by intros [= -> ->]. Qed.

Lemma get_dict_inv d m w w' :
  get_dict d w = Ok m w' → w' = w ∧ dicts w !! d = Some m.
Proof. unfold get_dict. destruct (dicts w !! d); [|done]. by intros [= -> ->]. Qed.

Lemma get___dict___inv a d w w' :
  get___dict__ a w = Ok d w' → w' = w ∧ ∃ o, objs w !! a = Some o ∧ d = dict_ o.
Proof.
  unfold get___dict__. intros (o & w1 & H1 & H2)%bind_inv_Ok.
  apply get_obj_inv in H1 as [-> Ho]. injection H2 as <- <-. eauto.
Qed.

Lemma set___dict___inv a d u w w' :
  set___dict__ a d w = Ok u w' →
  ∃ o m, objs w !! a = Some o ∧ dicts w !! d = Some m
         ∧ w' = set_objs (insert a (Instance (cls o) d)) w.
Proof.
  unfold set___dict__. intros (o & w1 & H1 & H2)%bind_inv_Ok.
  apply get_obj_inv in H1 as [-> Ho].
  apply bind_inv_Ok in H2 as (m & w2 & H2 & H3).
  apply get_dict_inv in H2 as [-> Hm].
  injection H3 as _ <-. eauto.
Qed.

Lemma setattr_inv a name v u w w' :
  setattr a name v w = Ok u w' →
  ∃ o m, objs w !! a = Some o ∧ dicts w !! dict_ o = Some m
         ∧ w' = set_dicts (insert (dict_ o) (<[name := v]> m)) w.
Proof.
  unfold setattr. intros (o & w1 & H1 & H2)%bind_inv_Ok.
  apply get_obj_inv in H1 as [-> Ho].
  apply bind_inv_Ok in H2 as (m & w2 & H2 & H3).
  apply get_dict_inv in H2 as [-> Hm].
  injection H3 as _ <-. eauto.
Qed.

Lemma index_inv l i v w w' :
  index l i w = Ok v w' → w' = w ∧ l !! i = Some v.
Proof. unfold index. destruct (l !! i); [|done]. by intros [= -> ->]. Qed.

Lemma cacheLocally_inv c cid a u w w' :
  Broker.cacheLocally c cid a w = Ok u w' → ∃ n, cid = VInt n.
Proof. destruct cid; try done. eauto. Qed.

Ltac bind_inv H :=
  let a := fresh "a" in let w := fresh "w" in let H1 := fresh "H" in
  apply bind_inv_Ok in H as (a & w & H1 & H).

(** C9. The proxy that a full-cache reception returns on a connection
    serializes, under a jellier for that connection, as [("lcache", n)] with
    [n] the LUID received: a reference, built from the two attributes alone,
    with no state read, no call to the jellier and no change of state. *)
Theorem RemoteCache_roundtrip (U : Subclasses) (self : addr) (c : conn)
    (unjelly : value → M value) (setInstanceState : addr → list value → M value)
    (jellyList : list value) (w : world) (cProxy : addr) (w' : world)
    (jelly : value → M value) (prepare : addr → M (list value))
    (preserve : addr → list value → M value)
    (getInstanceState : addr → M value) :
  RemoteCache.unjellyFor U self (Unjellier.mk (Some c) unjelly setInstanceState)
    jellyList w = Ok (VObj cProxy) w' →
  ∃ n, jellyList !! 1%nat = Some (VInt n)
       ∧ RemoteCache.jellyFor cProxy
           (Jellier.mk (Some c) jelly prepare preserve getInstanceState) w'
         = Ok (VTuple [VStr "lcache"; VInt n]) w'.
Proof.
  intros H. unfold RemoteCache.unjellyFor in H. simpl in H.
  do 19 bind_inv H. injection H as -> <-.
  apply index_inv in H9 as [-> Hl].
  apply cacheLocally_inv in H10 as [n ->].
  apply index_inv in H17 as [-> Hl'].
  assert (a16 = VInt n) as -> by congruence.
  apply get___dict___inv in H14 as [-> (o3 & Ho3 & ->)].
  apply set___dict___inv in H15 as (os & m & Hos & Hm & ->).
  apply setattr_inv in H16 as (o1 & m1 & Ho1 & Hm1 & ->).
  apply setattr_inv in H18 as (o2 & m2 & Ho2 & Hm2 & ->).
  simpl in *. rewrite lookup_insert_eq in Ho1. injection Ho1 as <-.
  rewrite lookup_insert_eq in Ho2. injection Ho2 as <-. simpl in *.
  rewrite lookup_insert_eq in Hm2. injection Hm2 as <-.
  assert (Hm1' : m1 = m) by congruence. subst m1.
  exists n. split; [done|].
  assert (∃ o, objs (set_dicts
                       (insert (dict_ o3)
                          (<["luid" := VInt n]> (<["broker" := VBroker c]> m)))
                       (set_dicts
                          (insert (dict_ o3) (<["broker" := VBroker c]> m))
                          (set_objs (insert self (Instance (cls os) (dict_ o3))) w13)))
                 !! cProxy = Some o ∧ dict_ o = dict_ o3) as (o & Ho & Hd).
  { simpl. destruct (decide (self = cProxy)) as [->|Hne].
    - rewrite lookup_insert_eq. eauto.
    - rewrite lookup_insert_ne by done. eauto. }
  unfold RemoteCache.jellyFor. simpl.
  erewrite bind_Ok; last first.
  { eapply getattr_dict; [exact Ho| |].
    - rewrite Hd. simpl. apply lookup_insert_eq.
    - by rewrite lookup_insert_ne, lookup_insert_eq. }
  lazy beta iota. rewrite decide_True by done.
  erewrite bind_Ok; last first.
  { eapply getattr_dict; [exact Ho| |].
    - rewrite Hd. simpl. apply lookup_insert_eq.
    - by rewrite lookup_insert_eq. }
  reflexivity.
Qed.

(** On the side that cached the object, [("lcache", n)] resolves to the
    object sent under the LUID [n]. *)
Lemma unjellyLCache_resolves (c : conn) (unjelly : value → M value)
    (setInstanceState : addr → list value → M value)
    (tag : value) (n : Z) (rest : list value) (l : Local) (w : world) :
  remotelyCachedObjects (brokers w c) !! n = Some l →
  unjellyLCache (Unjellier.mk (Some c) unjelly setInstanceState)
    (tag :: VInt n :: rest) w = Ok (VObj (lobject l)) w.
Proof.
  intros H. unfold unjellyLCache. simpl.
  erewrite bind_Ok by reflexivity. erewrite bind_Ok by reflexivity.
  erewrite bind_Ok; last first.
  { unfold Broker.remotelyCachedForLUID, Broker.get.
    erewrite bind_Ok by reflexivity. by rewrite H. }
  reflexivity.
Qed.

Lemma RemoteCache_roundtrip_witness :
  ∃ n, full_cache_sexp !! 1%nat = Some (VInt n)
       ∧ RemoteCache.jellyFor 4%positive (demo_jellier (Some 1%positive))
           received_world
         = Ok (VTuple [VStr "lcache"; VInt n]) received_world.
Proof.
  apply (RemoteCache_roundtrip no_overrides 2%positive 1%positive unjelly_dict
           (λ self _, ret (VObj self)) full_cache_sexp fresh_proxy_world
           4%positive received_world).
  vm_compute. reflexivity.
Defined.

(** ** Registration precedes state application *)

Lemma bind_ext {A B} (m m' : M A) (k k' : A → M B) w :
  m w = m' w →
  (∀ a w1, m w = Ok a w1 → k a w1 = k' a w1) →
  (m ≫= k) w = (m' ≫= k') w.
Proof.
  intros Hm Hk. unfold mbind, M_bind, bind. rewrite <- Hm.
  destruct (m w) as [a w1|e w1]; [by apply Hk | done].
Qed.




(** An unjellier and a [setCopyableState] that assert on entry that the
    instance is registered: the assertions never fire. *)
Example unjellyFor_checked_succeeds :
  RemoteCache.unjellyFor (mkSubclasses (λ _, None) checked_setCopyableState)
    2%positive
    (Unjellier.mk (Some 1%positive) checked_unjelly (λ self _, ret (VObj self)))
    full_cache_sexp fresh_proxy_world
  = Ok (VObj 4%positive) received_world.
Proof. vm_compute. reflexivity. Qed.

(** ** Sending a Cacheable once *)

Lemma processUniqueID_Cacheable self o w :
  objs w !! self = Some o → cflavor (cls o) = FCacheable →
  processUniqueID self w = Ok (inl (Z.pos self)) w.
Proof.
  intros Ho Hf. unfold processUniqueID.
  rewrite (bind_Ok _ _ _ _ _ (get_class_Ok _ _ _ Ho)). by rewrite Hf.
Qed.

Lemma Cacheable_jellyFor_cached O self c o L jy pr ps gi w :
  cflavor (cls o) = FCacheable →
  registered_remotely c self o L w →
  ∃ w', Cacheable.jellyFor O self (Jellier.mk (Some c) jy pr ps gi) w
        = Ok (VTuple [VStr cached_atom; VInt L]) w'
        ∧ registered_remotely c self o L w'.
Proof.
  intros Hf (Ho & Hd & Hlt & Hdlt & HL).
  eexists. split.
  - unfold Cacheable.jellyFor. simpl.
    erewrite bind_Ok; last first.
    { unfold Broker.cachedRemotelyAs.
      rewrite (bind_Ok _ _ _ _ _ (processUniqueID_Cacheable _ _ _ Ho Hf)).
      unfold Broker.get. erewrite bind_Ok by reflexivity.
      rewrite HL. reflexivity. }
    reflexivity.
  - split_and!; try done. simpl. by rewrite fn_lookup_insert.
Qed.

Lemma jellyFor_times_cached O self c o L jy pr ps gi k w :
  cflavor (cls o) = FCacheable →
  registered_remotely c self o L w →
  ∃ w', jellyFor_times O k self (Jellier.mk (Some c) jy pr ps gi) w
        = Ok (replicate k (VTuple [VStr cached_atom; VInt L])) w'
        ∧ registered_remotely c self o L w'.
Proof.
  intros Hf. revert w. induction k as [|k IH]; intros w Hreg.
  - by exists w.
  - destruct (Cacheable_jellyFor_cached O _ _ _ _ jy pr ps gi _ Hf Hreg)
      as (w1 & Hrun & Hreg1).
    destruct (IH w1 Hreg1) as (w2 & Hrun2 & Hreg2).
    exists w2. split; [|done]. simpl.
    rewrite (bind_Ok _ _ _ _ _ Hrun), (bind_Ok _ _ _ _ _ Hrun2). done.
Qed.

Lemma cachedRemotelyAs_absent c self o w :
  objs w !! self = Some o → cflavor (cls o) = FCacheable →
  remotelyCachedLUIDs (brokers w c) !! inl (Z.pos self) = None →
  Broker.cachedRemotelyAs c self true w = Ok None w.
Proof.
  intros Ho Hf Hnone. unfold Broker.cachedRemotelyAs.
  rewrite (bind_Ok _ _ _ _ _ (processUniqueID_Cacheable _ _ _ Ho Hf)).
  unfold Broker.get. erewrite bind_Ok by reflexivity. by rewrite Hnone.
Qed.

Lemma cacheRemotely_fresh c self o w :
  objs w !! self = Some o → cflavor (cls o) = FCacheable →
  remotelyCachedLUIDs (brokers w c) !! inl (Z.pos self) = None →
  ∃ w', Broker.cacheRemotely c self w = Ok (currentLocalID (brokers w c) + 1) w'
        ∧ objs w' = objs w ∧ dicts w' = dicts w ∧ next w' = next w
        ∧ serializingPerspective (brokers w' c)
          = serializingPerspective (brokers w c)
        ∧ remotelyCachedLUIDs (brokers w' c) !! inl (Z.pos self)
          = Some (currentLocalID (brokers w c) + 1).
Proof.
  intros Ho Hf Hnone. eexists. split.
  - unfold Broker.cacheRemotely.
    rewrite (bind_Ok _ _ _ _ _ (processUniqueID_Cacheable _ _ _ Ho Hf)).
    unfold Broker.get at 1. erewrite bind_Ok by reflexivity. rewrite Hnone.
    unfold Broker.newLocalID, Broker.get, Broker.put.
    reflexivity.
  - simpl. rewrite !fn_lookup_insert. simpl. split_and!; try done.
    apply lookup_insert_eq.
Qed.

Lemma new_RemoteCacheObserver_frame c cached p w :
  ∃ w', new_RemoteCacheObserver c cached p w = Ok (Pos.succ (next w)) w'
        ∧ brokers w' = brokers w
        ∧ next w' = Pos.succ (Pos.succ (next w))
        ∧ (∀ a, a ≠ Pos.succ (next w) → objs w' !! a = objs w !! a)
        ∧ (∀ d, d ≠ next w → dicts w' !! d = dicts w !! d).
Proof.
  eexists. split.
  - unfold new_RemoteCacheObserver.
    rewrite (bind_Ok _ _ _ _ _ (new_instance_Ok _ _)).
    erewrite bind_Ok; last first.
    { eapply setattr_Ok; simpl; apply lookup_insert_eq. }
    erewrite bind_Ok; last first.
    { eapply setattr_Ok; simpl; apply lookup_insert_eq. }
    erewrite bind_Ok; last first.
    { eapply setattr_Ok; simpl; apply lookup_insert_eq. }
    reflexivity.
  - simpl. split_and!; [done|done| |].
    + intros a Ha. by rewrite lookup_insert_ne.
    + intros d Hd. by rewrite !lookup_insert_ne.
Qed.

Lemma keeps_bind (P : world → Prop) {A B} (m : M A) (k : A → M B) :
  keeps P m → (∀ a, keeps P (k a)) → keeps P (m ≫= k).
Proof.
  intros Hm Hk w HP. specialize (Hm w HP).
  unfold mbind, M_bind, bind. destruct (m w) as [a w1|e w1]; [|done].
  by apply Hk.
Qed.

Lemma keeps_new_RemoteCacheObserver c self o L p :
  keeps (registered_remotely c self o L) (new_RemoteCacheObserver c self p).
Proof.
  intros w (Ho & Hd & Hlt & Hdlt & HL).
  destruct (new_RemoteCacheObserver_frame c self p w)
    as (w' & Hrun & Hb & Hn & Hobjs & Hdicts).
  rewrite Hrun. simpl. split_and!.
  - rewrite Hobjs; [done|lia].
  - rewrite Hdicts; [done|lia].
  - lia.
  - lia.
  - by rewrite Hb.
Qed.

(** The claim of C1 fails when the first serialization fails after the LUID
    was allocated: the jellier rejects the state of the Cacheable at address
    2, nothing is emitted, and the next serialization emits [("cached", 1)]
    for a state that was never sent. *)
Lemma Cacheable_jellyFor_failed_first :
  (∃ w1, Cacheable.jellyFor no_hooks 2%positive
           (failing_jellier (Some 1%positive)) cacheable_world
         = Raise (TypeError "cannot jelly") w1)
  ∧ (∃ w2, Cacheable.jellyFor no_hooks 2%positive
             (failing_jellier (Some 1%positive))
             (world_of (Cacheable.jellyFor no_hooks 2%positive
                          (failing_jellier (Some 1%positive))
                          cacheable_world))
           = Ok (VTuple [VStr "cached"; VInt 1]) w2).
Proof. split; eexists; vm_compute; reflexivity. Qed.

(** C1, amended. The first serialization of a Cacheable over a connection
    allocates the next LUID of the connection, held by no entry of the
    outgoing cache, and registers the object under it; only then does it ask
    the hooks of the class of the object for the type tag and the state, and
    the jellier for the list it preserves: the type tag, that LUID and the
    jellied state.  Whether these return or fail, the object stays
    registered, and each of the [k] serializations that follow returns
    [("cached", LUID)] with that LUID, whatever [k], without a call to a
    hook or to the jellier. *)
Theorem Cacheable_jellyFor_once_then_cached (O : Overrides) (self : addr)
    (c : conn) (jy : value → M value) (pr : addr → M (list value))
    (ps : addr → list value → M value) (gi : addr → M value)
    (w : world) (o : instance) (k : nat) :
  let jellier := Jellier.mk (Some c) jy pr ps gi in
  let L := currentLocalID (brokers w c) + 1 in
  let p := serializingPerspective (brokers w c) in
  let registered := registered_remotely c self o L in
  heap_ok w → objs w !! self = Some o → cflavor (cls o) = FCacheable →
  remotelyCachedLUIDs (brokers w c) !! inl (Z.pos self) = None →
  map_Forall (λ _ (l : Z), (l ≤ currentLocalID (brokers w c))%Z)
    (remotelyCachedLUIDs (brokers w c)) →
  keeps registered (Copyable.call_getTypeToCopyFor O self p) →
  (∀ observer,
     keeps registered
       (Cacheable.call_getStateToCacheAndObserveFor O self p observer)) →
  keeps registered (pr self) →
  (∀ state, keeps registered (jy state)) →
  (∀ l, keeps registered (ps self l)) →
  let wA := world_of (Broker.cacheRemotely c self w) in
  let first := Cacheable.jellyFor O self jellier w in
  (∀ q, remotelyCachedLUIDs (brokers w c) !! q ≠ Some L)
  ∧ Broker.cacheRemotely c self w = Ok L wA
  ∧ registered wA
  ∧ first
    = (Copyable.call_getTypeToCopyFor O self p ≫= λ type_,
       new_RemoteCacheObserver c self p ≫= λ observer,
       Cacheable.call_getStateToCacheAndObserveFor O self p observer
       ≫= λ state,
       pr self ≫= λ l,
       jy state ≫= λ jstate,
       ps self (l ++ [type_; VInt L; jstate])%list) wA
  ∧ registered (world_of first)
  ∧ ∃ w2, jellyFor_times O k self jellier (world_of first)
          = Ok (replicate k (VTuple [VStr cached_atom; VInt L])) w2.
Proof.
  intros jellier L p registered Hok Ho Hf Hnone Hle Hty Hst Hpr Hjy Hps wA first.
  destruct (heap_ok_obj _ _ _ Hok Ho) as [Hlt [m Hm]].
  pose proof (heap_ok_dict _ _ _ Hok Hm) as Hdlt.
  destruct (cacheRemotely_fresh c _ _ _ Ho Hf Hnone)
    as (wA' & HrunA & HoA & HdA & HnA & HpA & HLA).
  assert (wA = wA') as HwA by (unfold wA; by rewrite HrunA).
  rewrite <- HwA in *. clear HwA wA'.
  assert (registered wA) as HregA.
  { unfold registered, registered_remotely.
    rewrite HoA, HdA, HnA. split_and!; try done. }
  assert (first
          = (Copyable.call_getTypeToCopyFor O self p ≫= λ type_,
             new_RemoteCacheObserver c self p ≫= λ observer,
             Cacheable.call_getStateToCacheAndObserveFor O self p observer
             ≫= λ state,
             pr self ≫= λ l,
             jy state ≫= λ jstate,
             ps self (l ++ [type_; VInt L; jstate])%list) wA) as Hfirst.
  { unfold first, jellier, Cacheable.jellyFor. simpl.
    rewrite (bind_Ok _ _ _ _ _ (cachedRemotelyAs_absent c _ _ _ Ho Hf Hnone)).
    rewrite (bind_Ok _ _ _ _ _ HrunA).
    unfold Broker.get. erewrite bind_Ok by reflexivity.
    by rewrite HpA. }
  assert (registered (world_of first)) as Hreg1.
  { rewrite Hfirst. revert HregA. generalize wA.
    apply keeps_bind; [done|]. intros type_.
    apply keeps_bind; [apply keeps_new_RemoteCacheObserver|]. intros observer.
    apply keeps_bind; [done|]. intros state.
    apply keeps_bind; [done|]. intros l.
    apply keeps_bind; [done|]. intros jstate. apply Hps. }
  split_and!; try done.
  - intros q Hq. specialize (Hle q _ Hq). simpl in Hle. unfold L in Hq. lia.
  - destruct (jellyFor_times_cached O self c o L jy pr ps gi k _ Hf Hreg1)
      as (w2 & Hrun2 & _).
    by exists w2.
Qed.

Lemma Cacheable_jellyFor_once_then_cached_witness :
  (∀ q, remotelyCachedLUIDs (brokers cacheable_world 1%positive) !! q
        ≠ Some 1)
  ∧ Broker.cacheRemotely 1%positive 2%positive cacheable_world
    = Ok 1 (world_of (Broker.cacheRemotely 1%positive 2%positive
                        cacheable_world))
  ∧ registered_remotely 1%positive 2%positive
      (Instance cacheable_class 1%positive) 1
      (world_of (Broker.cacheRemotely 1%positive 2%positive cacheable_world))
  ∧ Cacheable.jellyFor renaming_hooks 2%positive
      (demo_jellier (Some 1%positive)) cacheable_world
    = (Copyable.call_getTypeToCopyFor renaming_hooks 2%positive VNone
       ≫= λ type_,
       new_RemoteCacheObserver 1%positive 2%positive VNone ≫= λ observer,
       Cacheable.call_getStateToCacheAndObserveFor renaming_hooks 2%positive
         VNone observer ≫= λ state,
       Jellier.prepare (demo_jellier (Some 1%positive)) 2%positive ≫= λ l,
       Jellier.jelly (demo_jellier (Some 1%positive)) state ≫= λ jstate,
       Jellier.preserve (demo_jellier (Some 1%positive)) 2%positive
         (l ++ [type_; VInt 1; jstate])%list)
        (world_of (Broker.cacheRemotely 1%positive 2%positive
                     cacheable_world))
  ∧ registered_remotely 1%positive 2%positive
      (Instance cacheable_class 1%positive) 1
      (world_of (Cacheable.jellyFor renaming_hooks 2%positive
                   (demo_jellier (Some 1%positive)) cacheable_world))
  ∧ ∃ w2, jellyFor_times renaming_hooks 3 2%positive
            (demo_jellier (Some 1%positive))
            (world_of (Cacheable.jellyFor renaming_hooks 2%positive
                         (demo_jellier (Some 1%positive)) cacheable_world))
          = Ok (replicate 3 (VTuple [VStr cached_atom; VInt 1])) w2.
Proof.
  apply (Cacheable_jellyFor_once_then_cached renaming_hooks 2%positive
           1%positive jelly_dict (λ _, mret []) (λ _ l, mret (VList l))
           (λ self, d ← get___dict__ self; jelly_dict (VDict d))
           cacheable_world (Instance cacheable_class 1%positive) 3).
  - apply (bool_decide_unpack _). vm_compute. exact I.
  - vm_compute. reflexivity.
  - reflexivity.
  - vm_compute. reflexivity.
  - apply map_Forall_empty.
  - intros w H. pose proof H as (Ho & _).
    unfold Copyable.call_getTypeToCopyFor, Copyable.getTypeToCopyFor,
      Copyable.call_getTypeToCopy.
    repeat (rewrite (bind_Ok _ _ _ _ _ (get_class_Ok _ _ _ Ho)); simpl).
    exact H.
  - intros observer w H. pose proof H as (Ho & _).
    unfold Cacheable.call_getStateToCacheAndObserveFor,
      Cacheable.getStateToCacheAndObserveFor,
      Copyable.call_getStateToCopyFor, Copyable.getStateToCopyFor,
      Copyable.call_getStateToCopy, Copyable.getStateToCopy.
    repeat (rewrite (bind_Ok _ _ _ _ _ (get_class_Ok _ _ _ Ho)); simpl).
    rewrite (bind_Ok _ _ _ _ _ (get___dict___Ok _ _ _ Ho)). exact H.
  - by intros w H.
  - intros state w H. destruct state; try done. simpl.
    unfold mbind, M_bind, bind, get_dict. by destruct (dicts w !! d).
  - by intros l w H.
Defined.

(** The scenario as the peer sees it. *)
Example Cacheable_jellyFor_scenario :
  ∃ w', jellyFor_times renaming_hooks 3 2%positive
          (demo_jellier (Some 1%positive)) cacheable_world
        = Ok [VList [VStr "pkg.RemoteA"; VInt 1;
                     VList [VStr "dictionary"; VList [VStr "x"; VInt 1]]];
              VTuple [VStr "cached"; VInt 1];
              VTuple [VStr "cached"; VInt 1]] w'.
Proof. eexists. vm_compute. reflexivity. Qed.

(** * Further properties of the module *)

Lemma getattr_world a name w : world_of (getattr a name w) = w.
Proof.
  unfold getattr, get_obj, get_dict, mbind, M_bind, bind, mret, M_ret, ret, raise.
  destruct (objs w !! a) as [o|]; [|done].
  destruct (dicts w !! dict_ o) as [m|]; [|done].
  destruct (m !! name); [done|].
  by destruct (class_attr _ _).
Qed.

Lemma getattr_Ok_world a name v w w' : getattr a name w = Ok v w' → w' = w.
Proof. intros H. pose proof (getattr_world a name w) as E. by rewrite H in E. Qed.

Lemma getattr_Raise_world a name e w w' :
  getattr a name w = Raise e w' → w' = w.
Proof. intros H. pose proof (getattr_world a name w) as E. by rewrite H in E. Qed.

(** X1. The finalizer never raises, whatever the release path of the
    broker does: when [decCacheRef] is reached it is called with the broker
    and the LUID the proxy holds, and when it fails, or when the LUID cannot
    be read, the exception is logged and the finalizer returns. *)
Theorem RemoteCache___del___never_raises
    (decCacheRef : conn → value → M unit) (self : addr) (w : world) :
  let run := RemoteCache.__del___calling decCacheRef self w in
  (∃ w', run = Ok tt w')
  ∧ (∀ c l, getattr self "broker" w = Ok (VBroker c) w →
            getattr self "luid" w = Ok l w →
            run = try_except (decCacheRef c l) log_deferr w)
  ∧ (∀ c e, getattr self "broker" w = Ok (VBroker c) w →
            getattr self "luid" w = Raise e w → run = log_deferr e w)
  ∧ (∀ e, getattr self "broker" w = Raise e w → run = log_deferr e w).
Proof.
  intros run. unfold run, RemoteCache.__del___calling.
  assert (∀ (m : M unit) w0, ∃ w', try_except m log_deferr w0 = Ok tt w')
    as Hnever.
  { intros m w0. unfold try_except, log_deferr.
    destruct (m w0) as [[] w1|e w1]; eauto. }
  split_and!.
  - apply Hnever.
  - intros c l Hb Hl. unfold try_except.
    rewrite (bind_Ok _ _ _ _ _ Hb). simpl.
    by rewrite (bind_Ok _ _ _ _ _ Hb), (bind_Ok _ _ _ _ _ Hl).
  - intros c e Hb Hl. unfold try_except.
    rewrite (bind_Ok _ _ _ _ _ Hb). simpl.
    by rewrite (bind_Ok _ _ _ _ _ Hb), (bind_Raise _ _ _ _ _ Hl).
  - intros e Hb. unfold try_except.
    by rewrite (bind_Raise _ _ _ _ _ Hb).
Qed.

Lemma RemoteCache___del___never_raises_witness :
  RemoteCache.__del___calling failing_decCacheRef 4%positive received_world
  = try_except (failing_decCacheRef 1%positive (VInt 1)) log_deferr
      received_world.
Proof.
  apply (proj1 (proj2 (RemoteCache___del___never_raises failing_decCacheRef
                         4%positive received_world)));
    vm_compute; reflexivity.
Defined.

(** A release path that fails leaves one entry in the log. *)
Example RemoteCache___del___logs_failure :
  ∃ w', RemoteCache.__del___calling failing_decCacheRef 4%positive
          received_world = Ok tt w'
        ∧ logged received_world = []
        ∧ logged w' = [UnknownLocalId]
        ∧ brokers w' = brokers received_world.
Proof. eexists. split_and!; vm_compute; reflexivity. Qed.

(** X2. A RemoteCache that holds no [broker] of its own, hence the [None]
    of its class, finalizes without notifying anyone and without logging. *)
Theorem RemoteCache___del___unbound (self : addr) (o : instance)
    (m : gmap string value) (w : world) :
  objs w !! self = Some o → cflavor (cls o) = FRemoteCache →
  dicts w !! dict_ o = Some m → m !! "broker" = None →
  RemoteCache.__del__ self w = Ok tt w.
Proof.
  intros Ho Hf Hm Hb. apply RemoteCache___del___disarmed.
  unfold getattr.
  rewrite (bind_Ok _ _ _ _ _ (get_obj_Ok _ _ _ Ho)).
  rewrite (bind_Ok _ _ _ _ _ (get_dict_Ok _ _ _ Hm)).
  by rewrite Hb, Hf.
Qed.

Lemma RemoteCache___del___unbound_witness :
  RemoteCache.__del__ 2%positive fresh_proxy_world = Ok tt fresh_proxy_world.
Proof.
  apply (RemoteCache___del___unbound 2%positive
           (Instance remotecache_class 1%positive) ∅ fresh_proxy_world);
    vm_compute; reflexivity.
Defined.

(** X3. A cached proxy is serialized for the broker it came from only:
    under a jellier for another broker, or when it holds no broker, the
    assertion fails and the state is left as it was. *)
Theorem RemoteCache_jellyFor_other_broker (self : addr) (c : conn) (b : value)
    (jelly : value → M value) (prepare : addr → M (list value))
    (preserve : addr → list value → M value)
    (getInstanceState : addr → M value) (w : world) :
  getattr self "broker" w = Ok b w → b ≠ VBroker c →
  RemoteCache.jellyFor self
    (Jellier.mk (Some c) jelly prepare preserve getInstanceState) w
  = Raise (AssertionError
             "You cannot exchange cached proxies between brokers.") w.
Proof.
  intros Hb Hne. unfold RemoteCache.jellyFor. simpl.
  rewrite (bind_Ok _ _ _ _ _ Hb).
  destruct b; try done.
  rewrite decide_False; [done|]. congruence.
Qed.

Lemma RemoteCache_jellyFor_other_broker_witness :
  RemoteCache.jellyFor 4%positive (demo_jellier (Some 2%positive))
    received_world
  = Raise (AssertionError
             "You cannot exchange cached proxies between brokers.")
      received_world.
Proof.
  apply (RemoteCache_jellyFor_other_broker 4%positive 2%positive
           (VBroker 1%positive)).
  - vm_compute. reflexivity.
  - discriminate.
Defined.

(** X4. A full-cache list too short to hold a LUID fails with IndexError
    once [self.broker] is set: nothing is registered and no proxy is
    allocated. *)
Theorem RemoteCache_unjellyFor_without_luid (U : Subclasses) (self : addr)
    (c : conn) (unjelly : value → M value)
    (sis : addr → list value → M value) (jellyList : list value)
    (w : world) (o : instance) (m : gmap string value) :
  objs w !! self = Some o → dicts w !! dict_ o = Some m →
  jellyList !! 1%nat = None →
  ∃ w', RemoteCache.unjellyFor U self (Unjellier.mk (Some c) unjelly sis)
          jellyList w = Raise IndexError w'
        ∧ getattr self "broker" w' = Ok (VBroker c) w'
        ∧ objs w' = objs w ∧ next w' = next w ∧ brokers w' = brokers w.
Proof.
  intros Ho Hm Hl. eexists. split.
  - unfold RemoteCache.unjellyFor. simpl.
    rewrite (bind_Ok _ _ _ _ _ (setattr_Ok _ _ _ _ _ _ Ho Hm)).
    apply bind_Raise. unfold index. by rewrite Hl.
  - split_and!; try done.
    eapply getattr_dict; [exact Ho| |]; simpl; apply lookup_insert_eq.
Qed.

Lemma RemoteCache_unjellyFor_without_luid_witness :
  ∃ w', RemoteCache.unjellyFor no_overrides 2%positive
          (demo_unjellier (Some 1%positive)) [VStr "pkg.A"] fresh_proxy_world
        = Raise IndexError w'
        ∧ getattr 2%positive "broker" w' = Ok (VBroker 1%positive) w'
        ∧ objs w' = objs fresh_proxy_world
        ∧ next w' = next fresh_proxy_world
        ∧ brokers w' = brokers fresh_proxy_world.
Proof.
  apply (RemoteCache_unjellyFor_without_luid no_overrides 2%positive
           1%positive unjelly_dict (λ self _, ret (VObj self)) [VStr "pkg.A"]
           fresh_proxy_world (Instance remotecache_class 1%positive) ∅);
    vm_compute; reflexivity.
Defined.

(** X5. A full-cache list with a LUID and no state fails with IndexError
    after the registration: the instance stays in the incoming cache under
    the LUID, which it carries. *)
Theorem RemoteCache_unjellyFor_without_state (U : Subclasses) (self : addr)
    (c : conn) (unjelly : value → M value)
    (sis : addr → list value → M value) (ty : value) (n : Z)
    (w : world) (o : instance) :
  heap_ok w → objs w !! self = Some o →
  init_of U (cls o) = None →
  Broker.lookupIncoming (brokers w c) n = None →
  ∃ w', RemoteCache.unjellyFor U self (Unjellier.mk (Some c) unjelly sis)
          [ty; VInt n] w = Raise IndexError w'
        ∧ registered_locally c n self w'
        ∧ getattr self "luid" w' = Ok (VInt n) w'.
Proof.
  intros Hok Ho Hinit Hnone.
  destruct (heap_ok_obj _ _ _ Hok Ho) as [Hlt [m Hm]].
  pose proof (heap_ok_dict _ _ _ Hok Hm) as Hdlt.
  eexists. split.
  - rewrite (unjellyFor_prelude _ _ _ _ _ _ _ _ _ _ _ Hok Ho Hm).
    rewrite Hinit.
    erewrite bind_Ok by reflexivity.
    erewrite bind_Ok by reflexivity.
    erewrite (bind_Ok _ _ _ tt); last first.
    { unfold Broker.cacheLocally, Broker.get, Broker.put.
      erewrite bind_Ok by reflexivity. simpl. rewrite Hnone. reflexivity. }
    apply bind_Raise. reflexivity.
  - split.
    + unfold registered_locally, Broker.lookupIncoming. simpl.
      rewrite fn_lookup_insert. simpl. apply lookup_insert_eq.
    + eapply (getattr_dict _ o); simpl.
      * rewrite lookup_insert_ne by lia. exact Ho.
      * rewrite lookup_insert_ne by lia. apply lookup_insert_eq.
      * apply lookup_insert_eq.
Qed.

Lemma RemoteCache_unjellyFor_without_state_witness :
  ∃ w', RemoteCache.unjellyFor no_overrides 2%positive
          (demo_unjellier (Some 1%positive)) [VStr "pkg.A"; VInt 1]
          fresh_proxy_world = Raise IndexError w'
        ∧ registered_locally 1%positive 1 2%positive w'
        ∧ getattr 2%positive "luid" w' = Ok (VInt 1) w'.
Proof.
  apply (RemoteCache_unjellyFor_without_state no_overrides 2%positive
           1%positive unjelly_dict (λ self _, ret (VObj self)) (VStr "pkg.A") 1
           fresh_proxy_world (Instance remotecache_class 1%positive)).
  - apply (bool_decide_unpack _). vm_compute. exact I.
  - vm_compute. reflexivity.
  - reflexivity.
  - vm_compute. reflexivity.
Defined.

(** X6. When a reception returns, the proxy returned and the instance
    registered have one and the same [__dict__], whatever [setCopyableState]
    did; it holds the broker and the LUID received, and both hash alike. *)
Theorem RemoteCache_unjellyFor_shares_dict (U : Subclasses) (self : addr)
    (c : conn) (unjelly : value → M value)
    (sis : addr → list value → M value) (jellyList : list value)
    (w : world) (cProxy : addr) (w' : world) :
  RemoteCache.unjellyFor U self (Unjellier.mk (Some c) unjelly sis)
    jellyList w = Ok (VObj cProxy) w' →
  ∃ d m luid,
    get___dict__ cProxy w' = Ok d w'
    ∧ get___dict__ self w' = Ok d w'
    ∧ dicts w' !! d = Some m
    ∧ m !! "broker" = Some (VBroker c)
    ∧ jellyList !! 1%nat = Some luid ∧ m !! "luid" = Some luid
    ∧ RemoteCache.__hash__ cProxy w' = RemoteCache.__hash__ self w'.
Proof.
  intros H. unfold RemoteCache.unjellyFor in H. simpl in H.
  do 19 bind_inv H. injection H as -> <-.
  apply index_inv in H17 as [-> Hl'].
  apply get___dict___inv in H14 as [-> (o3 & Ho3 & ->)].
  apply set___dict___inv in H15 as (os & m & Hos & Hm & ->).
  apply setattr_inv in H16 as (o1 & m1 & Ho1 & Hm1 & ->).
  apply setattr_inv in H18 as (o2 & m2 & Ho2 & Hm2 & ->).
  simpl in *. rewrite lookup_insert_eq in Ho1. injection Ho1 as <-.
  rewrite lookup_insert_eq in Ho2. injection Ho2 as <-. simpl in *.
  rewrite lookup_insert_eq in Hm2. injection Hm2 as <-.
  assert (Hm1' : m1 = m) by congruence. subst m1.
  set (wf := set_dicts _ (set_dicts _ (set_objs _ w13))).
  assert (∃ o, objs wf !! cProxy = Some o ∧ dict_ o = dict_ o3) as (o & Ho & Hd).
  { simpl. destruct (decide (self = cProxy)) as [->|Hne].
    - rewrite lookup_insert_eq. eauto.
    - rewrite lookup_insert_ne by done. eauto. }
  assert (get___dict__ cProxy wf = Ok (dict_ o3) wf) as Hgc.
  { rewrite <- Hd. by apply get___dict___Ok. }
  assert (get___dict__ self wf = Ok (dict_ o3) wf) as Hgs.
  { apply (get___dict___Ok _ (Instance (cls os) (dict_ o3))). simpl.
    apply lookup_insert_eq. }
  exists (dict_ o3), (<["luid" := a16]> (<["broker" := VBroker c]> m)), a16.
  split_and!; try done.
  - simpl. apply lookup_insert_eq.
  - by rewrite lookup_insert_ne, lookup_insert_eq.
  - apply lookup_insert_eq.
  - unfold RemoteCache.__hash__.
    by rewrite (bind_Ok _ _ _ _ _ Hgc), (bind_Ok _ _ _ _ _ Hgs).
Qed.

Lemma RemoteCache_unjellyFor_shares_dict_witness :
  ∃ d m luid,
    get___dict__ 4%positive received_world = Ok d received_world
    ∧ get___dict__ 2%positive received_world = Ok d received_world
    ∧ dicts received_world !! d = Some m
    ∧ m !! "broker" = Some (VBroker 1%positive)
    ∧ full_cache_sexp !! 1%nat = Some luid ∧ m !! "luid" = Some luid
    ∧ RemoteCache.__hash__ 4%positive received_world
      = RemoteCache.__hash__ 2%positive received_world.
Proof.
  apply (RemoteCache_unjellyFor_shares_dict no_overrides 2%positive 1%positive
           unjelly_dict (λ self _, ret (VObj self)) full_cache_sexp
           fresh_proxy_world 4%positive received_world).
  vm_compute. reflexivity.
Defined.

(** X7. A copy received for a broker is installed in [self], which is
    returned: the unjellied dictionary becomes its [__dict__], so every
    attribute reads from the state received and what [self] held before is
    no longer seen; the tables of the broker are not touched. *)
Theorem RemoteCopy_unjellyFor_replaces_state (U : Subclasses) (self : addr)
    (c : conn) (unjelly : value → M value)
    (sis : addr → list value → M value) (jellyList : list value) (j : value)
    (w w1 : world) (o : instance) (d : addr) (m : gmap string value) :
  jellyList !! 1%nat = Some j →
  unjelly j w = Ok (VDict d) w1 →
  objs w1 !! self = Some o → dicts w1 !! d = Some m →
  setCopyableState_of U (cls o) = None →
  ∃ w', RemoteCopy.unjellyFor U self (Unjellier.mk (Some c) unjelly sis)
          jellyList w = Ok (VObj self) w'
        ∧ get___dict__ self w' = Ok d w'
        ∧ dicts w' = dicts w1 ∧ brokers w' = brokers w1
        ∧ ∀ name,
            getattr self name w'
            = match m !! name with
              | Some v => Ok v w'
              | None =>
                  match class_attr (cflavor (cls o)) name with
                  | Some v => Ok v w'
                  | None => Raise (AttributeError name) w'
                  end
              end.
Proof.
  intros Hj Hun Ho Hm Hnone. eexists. split.
  - unfold RemoteCopy.unjellyFor. simpl.
    erewrite bind_Ok; last first.
    { unfold index. rewrite Hj. reflexivity. }
    rewrite (bind_Ok _ _ _ _ _ Hun).
    erewrite bind_Ok; last first.
    { unfold RemoteCopy.call_setCopyableState.
      rewrite (bind_Ok _ _ _ _ _ (get_class_Ok _ _ _ Ho)). rewrite Hnone.
      unfold RemoteCopy.setCopyableState, set___dict__.
      rewrite (bind_Ok _ _ _ _ _ (get_obj_Ok _ _ _ Ho)).
      rewrite (bind_Ok _ _ _ _ _ (get_dict_Ok _ _ _ Hm)).
      reflexivity. }
    reflexivity.
  - simpl. split_and!; try done.
    + apply (get___dict___Ok _ (Instance (cls o) d)). simpl.
      apply lookup_insert_eq.
    + intros name. unfold getattr.
      erewrite bind_Ok; last first.
      { apply get_obj_Ok. simpl. apply lookup_insert_eq. }
      erewrite bind_Ok; last first.
      { apply get_dict_Ok. simpl. exact Hm. }
      simpl. destruct (m !! name); [done|].
      by destruct (class_attr _ _).
Qed.

Lemma RemoteCopy_unjellyFor_replaces_state_witness :
  ∃ w', RemoteCopy.unjellyFor no_overrides 2%positive
          (demo_unjellier (Some 1%positive)) copy_sexp copy_world
        = Ok (VObj 2%positive) w'
        ∧ get___dict__ 2%positive w' = Ok 3%positive w'
        ∧ dicts w' = dicts (world_of (unjelly_dict
                                        (VList [VStr "dictionary";
                                                VList [VStr "x"; VInt 1]])
                                        copy_world))
        ∧ brokers w' = brokers (world_of (unjelly_dict
                                        (VList [VStr "dictionary";
                                                VList [VStr "x"; VInt 1]])
                                        copy_world))
        ∧ ∀ name,
            getattr 2%positive name w'
            = match copied_state !! name with
              | Some v => Ok v w'
              | None =>
                  match class_attr
                          (cflavor (cls (Instance remotecopy_class 1%positive)))
                          name with
                  | Some v => Ok v w'
                  | None => Raise (AttributeError name) w'
                  end
              end.
Proof.
  apply (RemoteCopy_unjellyFor_replaces_state no_overrides 2%positive
           1%positive unjelly_dict (λ self _, ret (VObj self)) copy_sexp
           (VList [VStr "dictionary"; VList [VStr "x"; VInt 1]])
           copy_world _ (Instance remotecopy_class 1%positive) 3%positive
           copied_state).
  - reflexivity.
  - vm_compute. reflexivity.
  - vm_compute. reflexivity.
  - vm_compute. reflexivity.
  - reflexivity.
Defined.

Example RemoteCopy_unjellyFor_drops_old :
  getattr 2%positive "old" copy_world = Ok (VInt 0) copy_world
  ∧ ∃ w', RemoteCopy.unjellyFor no_overrides 2%positive
            (demo_unjellier (Some 1%positive)) copy_sexp copy_world
          = Ok (VObj 2%positive) w'
          ∧ getattr 2%positive "old" w' = Raise (AttributeError "old") w'
          ∧ getattr 2%positive "x" w' = Ok (VInt 1) w'.
Proof.
  split; [by vm_compute|]. eexists. split_and!; vm_compute; reflexivity.
Qed.

Lemma no_hooks_getTypeToCopyFor_world self p w :
  world_of (Copyable.call_getTypeToCopyFor no_hooks self p w) = w.
Proof.
  unfold Copyable.call_getTypeToCopyFor, Copyable.getTypeToCopyFor,
    Copyable.call_getTypeToCopy, Copyable.getTypeToCopy, str_class,
    get_class, get_obj, mbind, M_bind, bind, mret, M_ret, ret.
  destruct (objs w !! self) eqn:E; simpl; [|done].
  rewrite E. simpl. by rewrite E.
Qed.

Lemma no_hooks_getStateToCopyFor_world self p w :
  world_of (Copyable.call_getStateToCopyFor no_hooks self p w) = w.
Proof.
  unfold Copyable.call_getStateToCopyFor, Copyable.getStateToCopyFor,
    Copyable.call_getStateToCopy, Copyable.getStateToCopy, get___dict__,
    get_class, get_obj, mbind, M_bind, bind, mret, M_ret, ret.
  destruct (objs w !! self) eqn:E; simpl; [|done].
  rewrite E. simpl. by rewrite E.
Qed.

Lemma jelly_dict_world v w : world_of (jelly_dict v w) = w.
Proof.
  destruct v; try done. simpl.
  unfold mbind, M_bind, bind, get_dict. by destruct (dicts w !! d).
Qed.

(** X8. With a broker a Copyable is copied at every send and never cached:
    whatever hooks its class overrides, [jellyFor] writes to no table of a
    broker unless a hook or the jellier does.  For a class that overrides no
    hook the pair sent is the name of the class and the jellied [__dict__],
    the dictionary itself. *)
Theorem Copyable_jellyFor_full_state (O : Overrides) (self : addr) (c : conn)
    (jelly : value → M value) (prepare : addr → M (list value))
    (preserve : addr → list value → M value)
    (getInstanceState : addr → M value) (w : world) (o : instance) :
  let jellier := Jellier.mk (Some c) jelly prepare preserve getInstanceState in
  let p := serializingPerspective (brokers w c) in
  let untouched := λ w' : world, brokers w' = brokers w in
  objs w !! self = Some o →
  (keeps untouched (Copyable.call_getTypeToCopyFor O self p) →
   keeps untouched (Copyable.call_getStateToCopyFor O self p) →
   (∀ state, keeps untouched (jelly state)) →
   untouched (world_of (Copyable.jellyFor O self jellier w)))
  ∧ (getTypeToCopyFor_of O (cls o) = None →
     getTypeToCopy_of O (cls o) = None →
     getStateToCopyFor_of O (cls o) = None →
     getStateToCopy_of O (cls o) = None →
     Copyable.jellyFor O self jellier w
     = (jelly (VDict (dict_ o)) ≫= λ jstate,
        mret (VTuple [VStr (cname (cls o)); jstate])) w).
Proof.
  intros jellier p untouched Ho. split.
  - intros Hty Hst Hjy. unfold jellier, Copyable.jellyFor. simpl.
    unfold Broker.get. erewrite bind_Ok by reflexivity. fold p.
    assert (keeps untouched
              (Copyable.call_getTypeToCopyFor O self p ≫= λ type_,
               Copyable.call_getStateToCopyFor O self p ≫= λ state,
               jelly state ≫= λ jstate,
               mret (VTuple [type_; jstate]))) as K.
    { apply keeps_bind; [done|]. intros type_.
      apply keeps_bind; [done|]. intros state.
      apply keeps_bind; [done|]. by intros jstate w0 H0. }
    by apply K.
  - intros Htf Ht Hsf Hs. unfold jellier, Copyable.jellyFor. simpl.
    unfold Broker.get. erewrite bind_Ok by reflexivity.
    erewrite bind_Ok; last first.
    { unfold Copyable.call_getTypeToCopyFor, Copyable.getTypeToCopyFor,
        Copyable.call_getTypeToCopy, Copyable.getTypeToCopy, str_class.
      rewrite (bind_Ok _ _ _ _ _ (get_class_Ok _ _ _ Ho)). rewrite Htf.
      rewrite (bind_Ok _ _ _ _ _ (get_class_Ok _ _ _ Ho)). rewrite Ht.
      erewrite bind_Ok; last first.
      { rewrite (bind_Ok _ _ _ _ _ (get_class_Ok _ _ _ Ho)). reflexivity. }
      reflexivity. }
    erewrite bind_Ok; last first.
    { unfold Copyable.call_getStateToCopyFor, Copyable.getStateToCopyFor,
        Copyable.call_getStateToCopy, Copyable.getStateToCopy.
      rewrite (bind_Ok _ _ _ _ _ (get_class_Ok _ _ _ Ho)). rewrite Hsf.
      rewrite (bind_Ok _ _ _ _ _ (get_class_Ok _ _ _ Ho)). rewrite Hs.
      rewrite (bind_Ok _ _ _ _ _ (get___dict___Ok _ _ _ Ho)). reflexivity. }
    reflexivity.
Qed.

Lemma Copyable_jellyFor_full_state_witness :
  brokers (world_of (Copyable.jellyFor no_hooks 2%positive
                       (demo_jellier (Some 1%positive)) cacheable_world))
  = brokers cacheable_world
  ∧ Copyable.jellyFor no_hooks 2%positive (demo_jellier (Some 1%positive))
      cacheable_world
    = (jelly_dict (VDict (dict_ (Instance cacheable_class 1%positive)))
       ≫= λ jstate,
       mret (VTuple [VStr (cname (cls (Instance cacheable_class 1%positive)));
                     jstate])) cacheable_world.
Proof.
  pose proof (Copyable_jellyFor_full_state no_hooks 2%positive 1%positive
                jelly_dict (λ _, mret []) (λ _ l, mret (VList l))
                (λ self, d ← get___dict__ self; jelly_dict (VDict d))
                cacheable_world (Instance cacheable_class 1%positive)) as H.
  destruct H as [Hframe Hdefault]; [vm_compute; reflexivity|].
  split.
  - apply Hframe.
    + intros w H. by rewrite no_hooks_getTypeToCopyFor_world.
    + intros w H. by rewrite no_hooks_getStateToCopyFor_world.
    + intros state w H. by rewrite jelly_dict_world.
  - apply Hdefault; reflexivity.
Defined.

(** Two sends in a row carry the same full state. *)
Example Copyable_jellyFor_twice :
  ∃ r w1 w2,
    Copyable.jellyFor no_hooks 2%positive (demo_jellier (Some 1%positive))
      cacheable_world = Ok r w1
    ∧ Copyable.jellyFor no_hooks 2%positive (demo_jellier (Some 1%positive))
        w1 = Ok r w2
    ∧ r = VTuple [VStr "pkg.A";
                  VList [VStr "dictionary"; VList [VStr "x"; VInt 1]]].
Proof. eexists _, _, _. split_and!; vm_compute; reflexivity. Qed.

(** X9. Instances other than ViewPoints are keyed by identity: two of them
    have the same key exactly when they are one instance, and the key of a
    ViewPoint is never the key of such an instance. *)
Theorem processUniqueID_by_identity (a b : addr) (oa ob : instance)
    (w : world) :
  objs w !! a = Some oa → objs w !! b = Some ob →
  cflavor (cls oa) ≠ FViewPoint → cflavor (cls ob) ≠ FViewPoint →
  ∃ ka kb, processUniqueID a w = Ok ka w ∧ processUniqueID b w = Ok kb w
           ∧ (ka = kb ↔ a = b)
           ∧ ∀ vp kv w', ViewPoint.processUniqueID vp w = Ok kv w' → kv ≠ ka.
Proof.
  intros Ha Hb Hfa Hfb.
  assert (∀ x ox, objs w !! x = Some ox → cflavor (cls ox) ≠ FViewPoint →
                  processUniqueID x w = Ok (inl (Z.pos x)) w) as Hkey.
  { intros x ox Hx Hf. unfold processUniqueID.
    rewrite (bind_Ok _ _ _ _ _ (get_class_Ok _ _ _ Hx)).
    by destruct (cflavor (cls ox)). }
  exists (inl (Z.pos a)), (inl (Z.pos b)). split_and!; eauto.
  - split; [by intros [= ->] | by intros ->].
  - intros vp kv w' H. unfold ViewPoint.processUniqueID in H.
    do 4 bind_inv H. by injection H as <- _.
Qed.

Lemma processUniqueID_by_identity_witness :
  ∃ ka kb, processUniqueID 2%positive two_viewpoints = Ok ka two_viewpoints
           ∧ processUniqueID 4%positive two_viewpoints = Ok kb two_viewpoints
           ∧ (ka = kb ↔ 2%positive = 4%positive)
           ∧ ∀ vp kv w', ViewPoint.processUniqueID vp two_viewpoints = Ok kv w'
                         → kv ≠ ka.
Proof.
  apply (processUniqueID_by_identity 2%positive 4%positive
           (Instance perspective_class 1%positive)
           (Instance viewable_class 3%positive) two_viewpoints);
    solve [vm_compute; reflexivity | discriminate].
Defined.

Lemma index_Ok l i v w : l !! i = Some v → index l i w = Ok v w.
Proof. intros H. unfold index. by rewrite H. Qed.

Lemma index_Raise l i w : l !! i = None → index l i w = Raise IndexError w.
Proof. intros H. unfold index. by rewrite H. Qed.

Lemma set___dict___Raise_world a d e w w' :
  set___dict__ a d w = Raise e w' → w' = w.
Proof.
  unfold set___dict__, get_obj, get_dict, mbind, M_bind, bind.
  destruct (objs w !! a); [|by intros [= _ <-]].
  destruct (dicts w !! d); [done|by intros [= _ <-]].
Qed.

(** X10. Resolving a cached reference, whether it returns or fails, writes
    to no table of a broker, logs nothing and leaves every instance and
    dictionary in place: it allocates one instance at most. *)
Theorem unjellyCached_allocates_only (unjellier : Unjellier.t)
    (unjellyList : list value) (w : world) :
  let w' := world_of (unjellyCached unjellier unjellyList w) in
  brokers w' = brokers w
  ∧ logged w' = logged w
  ∧ (∀ a, a ≠ Pos.succ (next w) → objs w' !! a = objs w !! a)
  ∧ (∀ d, d ≠ next w → dicts w' !! d = dicts w !! d).
Proof.
  unfold unjellyCached.
  destruct (unjellyList !! 1%nat) as [luid|] eqn:E1; last first.
  { by rewrite (bind_Raise _ _ _ _ _ (index_Raise _ _ w E1)). }
  rewrite (bind_Ok _ _ _ _ _ (index_Ok _ _ _ w E1)).
  destruct (Unjellier.invoker unjellier) as [c|]; [|done]. simpl.
  erewrite bind_Ok by reflexivity.
  destruct (Broker.cachedLocallyAs c luid w) as [a w1|e w1] eqn:E2; last first.
  { rewrite (bind_Raise _ _ _ _ _ E2). simpl.
    destruct luid; simpl in E2; try (by injection E2 as _ <-).
    unfold Broker.get in E2. erewrite bind_Ok in E2 by reflexivity.
    destruct (Broker.lookupIncoming _ _); [done|]. by injection E2 as _ <-. }
  assert (w1 = w) as ->.
  { destruct luid; simpl in E2; try done.
    unfold Broker.get in E2. erewrite bind_Ok in E2 by reflexivity.
    destruct (Broker.lookupIncoming _ _); [|done]. by injection E2 as _ <-. }
  rewrite (bind_Ok _ _ _ _ _ E2).
  rewrite (bind_Ok _ _ _ _ _ (new_instance_Ok _ _)).
  set (w3 := mkWorld _ _ _ _ _).
  assert (brokers w3 = brokers w ∧ logged w3 = logged w
          ∧ (∀ a, a ≠ Pos.succ (next w) → objs w3 !! a = objs w !! a)
          ∧ (∀ d, d ≠ next w → dicts w3 !! d = dicts w !! d)) as H3.
  { unfold w3. simpl. split_and!; try done; intros;
      by rewrite lookup_insert_ne. }
  destruct (get_class a w3) as [k w4|e w4] eqn:E4; last first.
  { rewrite (bind_Raise _ _ _ _ _ E4). simpl.
    unfold get_class in E4. destruct (get_obj a w3) as [?|? ?] eqn:E.
    - by rewrite (bind_Ok _ _ _ _ _ E) in E4.
    - rewrite (bind_Raise _ _ _ _ _ E) in E4. injection E4 as _ <-.
      unfold get_obj in E. destruct (objs w3 !! a); [done|].
      by injection E as _ <-. }
  unfold get_class in E4. bind_inv E4. apply get_obj_inv in H as [-> Ha].
  injection E4 as <- <-.
  erewrite bind_Ok; last first.
  { apply (get_class_Ok _ a0). exact Ha. }
  erewrite bind_Ok; last first.
  { unfold set_class. erewrite bind_Ok; last first.
    { apply get_obj_Ok. unfold w3. simpl. apply lookup_insert_eq. }
    reflexivity. }
  set (w5 := set_objs _ w3).
  assert (objs w5 !! a = Some (if decide (a = Pos.succ (next w))
                               then Instance (cls a0) (next w) else a0)) as Ha5.
  { unfold w5. simpl. case_decide as Hd.
    - subst a. by rewrite lookup_insert_eq.
    - by rewrite lookup_insert_ne. }
  rewrite (bind_Ok _ _ _ _ _ (get___dict___Ok _ _ _ Ha5)).
  destruct H3 as (Hb3 & Hl3 & Ho3 & Hd3).
  match goal with
  | |- context [set___dict__ ?x ?d] =>
      destruct (set___dict__ x d w5) as [u w6|e w6] eqn:E6
  end.
  - rewrite (bind_Ok _ _ _ _ _ E6).
    apply set___dict___inv in E6 as (o6 & m6 & _ & _ & ->). simpl.
    split_and!; try done.
    intros x Hx. by rewrite !lookup_insert_ne.
  - rewrite (bind_Raise _ _ _ _ _ E6).
    apply set___dict___Raise_world in E6 as ->. simpl.
    split_and!; try done.
    intros x Hx. by rewrite !lookup_insert_ne.
Qed.



Example RemoteCacheObserver_hash_scenario :
  RemoteCacheObserver.__hash__ demo_hash 4%positive two_observers
  = Ok 3 two_observers.
Proof. vm_compute. reflexivity. Qed.

Lemma id_Ok_world v i w w' : id v w = Ok i w' → w' = w.
Proof. destruct v; simpl; try done; by intros [= _ <-]. Qed.

Lemma processUniqueID_Ok_world a k w w' :
  processUniqueID a w = Ok k w' → w' = w.
Proof.
  unfold processUniqueID, get_class. intros H. bind_inv H. bind_inv H0.
  apply get_obj_inv in H1 as [-> _]. injection H0 as <- <-.
  destruct (cflavor (cls a1)).
  all: try (unfold Serializable.processUniqueID in H; bind_inv H;
            simpl in H0; by injection H as _ <-; injection H0 as _ <-).
  unfold ViewPoint.processUniqueID in H. do 4 bind_inv H.
  injection H as _ <-.
  apply getattr_Ok_world in H0 as ->. apply getattr_Ok_world in H1 as ->.
  apply id_Ok_world in H2 as ->. by apply id_Ok_world in H3 as ->.
Qed.

Lemma cachedRemotelyAs_read c a k w :
  processUniqueID a w = Ok k w →
  Broker.cachedRemotelyAs c a false w
  = Ok (remotelyCachedLUIDs (brokers w c) !! k) w.
Proof.
  intros Hk. unfold Broker.cachedRemotelyAs.
  rewrite (bind_Ok _ _ _ _ _ Hk). unfold Broker.get.
  erewrite bind_Ok by reflexivity.
  by destruct (remotelyCachedLUIDs (brokers w c) !! k).
Qed.

(** X12. A reverse call looks the cached object up in the outgoing cache
    of the broker, without counting a reference: it is refused with a
    ProtocolError, nothing being sent, until the object has been sent, and
    afterwards sends [cache] with the perspective, the LUID and the name. *)
Theorem RemoteCacheObserver_callRemote_lookup (P : Peer) (self : addr)
    (name : string) (args kw : value) (c : conn) (a : addr)
    (k : Z + Z * Z) (p : value) (w : world) :
  getattr self "broker" w = Ok (VBroker c) w →
  getattr self "cached" w = Ok (VObj a) w →
  getattr self "perspective" w = Ok p w →
  processUniqueID a w = Ok k w →
  RemoteCacheObserver.callRemote P self name args kw w
  = match remotelyCachedLUIDs (brokers w c) !! k with
    | None => Raise not_yet_given w
    | Some L => _sendMessage P c "cache" p L (VStr name) args kw w
    end.
Proof.
  intros Hb Hc Hp Hk. unfold RemoteCacheObserver.callRemote.
  rewrite (bind_Ok _ _ _ _ _ Hb), (bind_Ok _ _ _ _ _ Hc).
  erewrite bind_Ok; last first.
  { unfold cachedRemotelyAs_value. simpl. erewrite bind_Ok by reflexivity.
    by apply cachedRemotelyAs_read. }
  destruct (remotelyCachedLUIDs (brokers w c) !! k); [|done].
  rewrite (bind_Ok _ _ _ _ _ Hb). simpl. erewrite bind_Ok by reflexivity.
  by rewrite (bind_Ok _ _ _ _ _ Hp).
Qed.

Lemma RemoteCacheObserver_callRemote_lookup_witness :
  RemoteCacheObserver.callRemote demo_peer 4%positive "update"
    (VTuple []) (VDict 1%positive) two_observers
  = match remotelyCachedLUIDs (brokers two_observers 1%positive)
          !! (inl (Z.pos 2) : Z + Z * Z) with
    | None => Raise not_yet_given two_observers
    | Some L =>
        _sendMessage demo_peer 1%positive "cache" VNone L (VStr "update")
          (VTuple []) (VDict 1%positive) two_observers
    end.
Proof.
  apply (RemoteCacheObserver_callRemote_lookup demo_peer 4%positive "update"
           (VTuple []) (VDict 1%positive) 1%positive 2%positive
           (inl (Z.pos 2)) VNone two_observers);
    vm_compute; reflexivity.
Defined.

Example callRemote_refused :
  RemoteCacheObserver.callRemote demo_peer 4%positive "update"
    (VTuple []) (VDict 1%positive) two_observers
  = Raise not_yet_given two_observers.
Proof. vm_compute. reflexivity. Qed.

Lemma cachedRemotelyAs_value_world b cd r w w' :
  cachedRemotelyAs_value b cd w = Ok r w' → w' = w.
Proof.
  unfold cachedRemotelyAs_value. intros H. bind_inv H.
  destruct b; simpl in H0; try done. injection H0 as <- <-.
  destruct cd; try done.
  unfold Broker.cachedRemotelyAs in H. bind_inv H.
  apply processUniqueID_Ok_world in H0 as ->.
  unfold Broker.get in H. bind_inv H. bind_inv H0.
  injection H0 as <- <-. injection H1 as <- <-.
  destruct (remotelyCachedLUIDs _ !! _); [|by injection H as _ <-].
  bind_inv H. injection H0 as _ <-. by injection H as _ <-.
Qed.

Lemma remoteMethod_Ok (self : addr) (key : string) (w : world) (o : instance)
    (m : gmap string value) (b cd p : value) :
  heap_ok w → objs w !! self = Some o → dicts w !! dict_ o = Some m →
  m !! "broker" = Some b → m !! "cached" = Some cd →
  m !! "perspective" = Some p →
  ∃ w', RemoteCacheObserver.remoteMethod self key w
        = Ok (Pos.succ (next w)) w'
        ∧ brokers w' = brokers w
        ∧ getattr self "broker" w' = Ok b w'
        ∧ getattr self "cached" w' = Ok cd w'
        ∧ getattr self "perspective" w' = Ok p w'
        ∧ getattr (Pos.succ (next w)) "broker" w' = Ok b w'
        ∧ getattr (Pos.succ (next w)) "cached" w' = Ok cd w'
        ∧ getattr (Pos.succ (next w)) "perspective" w' = Ok p w'
        ∧ getattr (Pos.succ (next w)) "name" w' = Ok (VStr key) w'.
Proof.
  intros Hok Ho Hm Hb Hc Hp.
  destruct (heap_ok_obj _ _ _ Hok Ho) as [Hlt _].
  pose proof (heap_ok_dict _ _ _ Hok Hm) as Hdlt.
  eexists. split.
  - unfold RemoteCacheObserver.remoteMethod.
    rewrite (bind_Ok _ _ _ _ _ (getattr_dict _ _ _ _ _ _ Ho Hm Hb)).
    rewrite (bind_Ok _ _ _ _ _ (getattr_dict _ _ _ _ _ _ Ho Hm Hc)).
    rewrite (bind_Ok _ _ _ _ _ (getattr_dict _ _ _ _ _ _ Ho Hm Hp)).
    unfold new_RemoteCacheMethod.
    rewrite (bind_Ok _ _ _ _ _ (new_instance_Ok _ _)).
    erewrite bind_Ok; last first.
    { unfold RemoteCacheMethod.__init__.
      erewrite bind_Ok; last first.
      { eapply setattr_Ok; simpl; apply lookup_insert_eq. }
      erewrite bind_Ok; last first.
      { eapply setattr_Ok; simpl; apply lookup_insert_eq. }
      erewrite bind_Ok; last first.
      { eapply setattr_Ok; simpl; apply lookup_insert_eq. }
      eapply setattr_Ok; simpl; apply lookup_insert_eq. }
    reflexivity.
  - simpl. split; [done|].
    assert (self ≠ Pos.succ (next w)) by lia.
    assert (dict_ o ≠ next w) by lia.
    split_and!.
    1-3: eapply (getattr_dict _ o m); simpl;
         [by rewrite lookup_insert_ne | by rewrite !lookup_insert_ne | done].
    all: eapply getattr_dict; simpl;
         [apply lookup_insert_eq | apply lookup_insert_eq |].
    all: repeat (rewrite lookup_insert_ne by done); apply lookup_insert_eq.
Qed.

(** X13. Calling the method that [remoteMethod] returns is calling
    [callRemote] with its key: same result, same failure, same state. *)
Theorem RemoteCacheObserver_remoteMethod_call (P : Peer) (self : addr)
    (key : string) (args kw : value) (w : world) (o : instance)
    (m : gmap string value) (b cd p : value) :
  heap_ok w → objs w !! self = Some o → dicts w !! dict_ o = Some m →
  m !! "broker" = Some b → m !! "cached" = Some cd →
  m !! "perspective" = Some p →
  (RemoteCacheObserver.remoteMethod self key ≫= λ method,
   RemoteCacheMethod.__call__ P method args kw) w
  = (RemoteCacheObserver.remoteMethod self key ≫= λ _,
     RemoteCacheObserver.callRemote P self key args kw) w.
Proof.
  intros Hok Ho Hm Hb Hc Hp.
  destruct (remoteMethod_Ok self key w o m b cd p Hok Ho Hm Hb Hc Hp)
    as (w' & Hrun & _ & Sb & Sc & Sp & Mb & Mc & Mp & Mn).
  rewrite !(bind_Ok _ _ _ _ _ Hrun).
  unfold RemoteCacheMethod.__call__, RemoteCacheObserver.callRemote.
  rewrite (bind_Ok _ _ _ _ _ Mb), (bind_Ok _ _ _ _ _ Mc).
  rewrite (bind_Ok _ _ _ _ _ Sb), (bind_Ok _ _ _ _ _ Sc).
  apply bind_ext; [done|]. intros r w1 Hr.
  apply cachedRemotelyAs_value_world in Hr as ->.
  destruct r; [|done].
  rewrite (bind_Ok _ _ _ _ _ Mb), (bind_Ok _ _ _ _ _ Sb).
  apply bind_ext; [done|]. intros c w1 Hc1.
  assert (w1 = w') as ->.
  { destruct b; simpl in Hc1; try done. by injection Hc1 as _ <-. }
  rewrite (bind_Ok _ _ _ _ _ Mp), (bind_Ok _ _ _ _ _ Sp).
  by rewrite (bind_Ok _ _ _ _ _ Mn).
Qed.

Lemma RemoteCacheObserver_remoteMethod_call_witness :
  (RemoteCacheObserver.remoteMethod 4%positive "update" ≫= λ method,
   RemoteCacheMethod.__call__ demo_peer method (VTuple []) (VDict 1%positive))
    two_observers
  = (RemoteCacheObserver.remoteMethod 4%positive "update" ≫= λ _,
     RemoteCacheObserver.callRemote demo_peer 4%positive "update"
       (VTuple []) (VDict 1%positive)) two_observers.
Proof.
  apply (RemoteCacheObserver_remoteMethod_call demo_peer 4%positive "update"
           (VTuple []) (VDict 1%positive) two_observers
           (Instance RemoteCacheObserver_class 3%positive) observer_dict
           (VBroker 1%positive) (VObj 2%positive) VNone).
  - apply (bool_decide_unpack _). vm_compute. exact I.
  - vm_compute. reflexivity.
  - vm_compute. reflexivity.
  - vm_compute. reflexivity.
  - vm_compute. reflexivity.
  - vm_compute. reflexivity.
Defined.

Lemma class_attr_remote f message : class_attr f ("remote_" +:+ message) = None.
Proof. destruct f; simpl; repeat case_decide; done. Qed.

Lemma getattr_method_ext (ms ms' : methods) a name w :
  (∀ k, ms k name = ms' k name) →
  getattr_method ms a name w = getattr_method ms' a name w.
Proof.
  intros H. unfold getattr_method.
  apply bind_ext; [done|]. intros o w1 _.
  apply bind_ext; [done|]. intros m w2 _.
  by rewrite H.
Qed.

(** X14. A message for which neither the instance nor its class holds
    [remote_] followed by its name fails with an AttributeError of that name,
    after both argument lists were unserialized; nothing is called. *)
Theorem Referenceable_remoteMessageReceived_no_handler (P : Peer)
    (ms : methods) (self : addr) (c : conn) (message : string)
    (args kw args' kw' : value) (w w1 w2 : world) (o : instance)
    (m : gmap string value) :
  unserialize P c args VNone w = Ok args' w1 →
  unserialize P c kw VNone w1 = Ok kw' w2 →
  objs w2 !! self = Some o → dicts w2 !! dict_ o = Some m →
  m !! ("remote_" +:+ message) = None →
  ms (cls o) ("remote_" +:+ message) = None →
  Referenceable_remoteMessageReceived P ms self c message args kw w
  = Raise (AttributeError ("remote_" +:+ message)) w2.
Proof.
  intros Ha Hk Ho Hm Hno Hms. unfold Referenceable_remoteMessageReceived.
  rewrite (bind_Ok _ _ _ _ _ Ha), (bind_Ok _ _ _ _ _ Hk).
  apply bind_Raise. unfold getattr_method.
  rewrite (bind_Ok _ _ _ _ _ (get_obj_Ok _ _ _ Ho)).
  rewrite (bind_Ok _ _ _ _ _ (get_dict_Ok _ _ _ Hm)).
  by rewrite Hno, Hms, class_attr_remote.
Qed.

Lemma Referenceable_remoteMessageReceived_no_handler_witness :
  Referenceable_remoteMessageReceived demo_peer demo_methods 2%positive
    1%positive "shutdown" (VTuple []) (VDict 1%positive) viewable_world
  = Raise (AttributeError ("remote_" +:+ "shutdown")) viewable_world.
Proof.
  apply (Referenceable_remoteMessageReceived_no_handler demo_peer demo_methods
           2%positive 1%positive "shutdown" (VTuple []) (VDict 1%positive)
           (VTuple []) (VDict 1%positive) viewable_world viewable_world
           viewable_world (Instance viewable_class 1%positive) ∅);
    vm_compute; reflexivity.
Defined.

(** X15. What a handler raises, a TypeError as any other exception,
    reaches the caller in the state the handler left; the result is not
    serialized. *)
Theorem Referenceable_remoteMessageReceived_propagates (P : Peer)
    (ms : methods) (self : addr) (c : conn) (message : string)
    (args kw args' kw' : value) (method : attribute) (e : exn)
    (w w1 w2 w3 w4 : world) :
  unserialize P c args VNone w = Ok args' w1 →
  unserialize P c kw VNone w1 = Ok kw' w2 →
  getattr_method ms self ("remote_" +:+ message) w2 = Ok method w3 →
  py_apply method args' kw' w3 = Raise e w4 →
  Referenceable_remoteMessageReceived P ms self c message args kw w
  = Raise e w4.
Proof.
  intros Ha Hk Hm He. unfold Referenceable_remoteMessageReceived.
  rewrite (bind_Ok _ _ _ _ _ Ha), (bind_Ok _ _ _ _ _ Hk).
  rewrite (bind_Ok _ _ _ _ _ Hm).
  apply bind_Raise. unfold try_except. rewrite He. by destruct e.
Qed.

Lemma Referenceable_remoteMessageReceived_propagates_witness :
  Referenceable_remoteMessageReceived demo_peer strict_methods 2%positive
    1%positive "ping" (VTuple [VInt 1]) (VDict 1%positive) viewable_world
  = Raise (TypeError "takes no arguments") viewable_world.
Proof.
  apply (Referenceable_remoteMessageReceived_propagates demo_peer
           strict_methods 2%positive 1%positive "ping" (VTuple [VInt 1])
           (VDict 1%positive) (VTuple [VInt 1]) (VDict 1%positive)
           (BoundMethod "remote_ping"
              (λ _ _ _, raise (TypeError "takes no arguments")) 2%positive)
           (TypeError "takes no arguments")
           viewable_world viewable_world viewable_world viewable_world
           viewable_world); vm_compute; reflexivity.
Defined.

(** X16. Each dispatcher reaches a handler under its own prefix only: a
    Referenceable under [remote_], a ViewPoint under [view_], a RemoteCache
    under [observe_], followed by the name of the message.  Class tables that
    agree on that one name give the same dispatch, whatever else they
    define. *)
Theorem remoteMessageReceived_prefixed_only (P : Peer) (c : conn)
    (message : string) :
  (∀ ms ms' self args kw w,
     (∀ k, ms k ("remote_" +:+ message) = ms' k ("remote_" +:+ message)) →
     Referenceable_remoteMessageReceived P ms self c message args kw w
     = Referenceable_remoteMessageReceived P ms' self c message args kw w)
  ∧ (∀ ms ms' self args kw w,
       (∀ k, ms k ("view_" +:+ message) = ms' k ("view_" +:+ message)) →
       ViewPoint_remoteMessageReceived P ms self c message args kw w
       = ViewPoint_remoteMessageReceived P ms' self c message args kw w)
  ∧ (∀ ms ms' self args kw w,
       (∀ k, ms k ("observe_" +:+ message) = ms' k ("observe_" +:+ message)) →
       RemoteCache_remoteMessageReceived P ms self c message args kw w
       = RemoteCache_remoteMessageReceived P ms' self c message args kw w).
Proof.
  split_and!; intros ms ms' self args kw w H.
  - unfold Referenceable_remoteMessageReceived.
    apply bind_ext; [done|]. intros a1 w1 _.
    apply bind_ext; [done|]. intros k1 w2 _.
    apply bind_ext; [by apply getattr_method_ext|]. done.
  - unfold ViewPoint_remoteMessageReceived.
    apply bind_ext; [done|]. intros p1 w1 _.
    apply bind_ext; [done|]. intros a1 w2 _.
    apply bind_ext; [done|]. intros p2 w3 _.
    apply bind_ext; [done|]. intros k1 w4 _.
    apply bind_ext; [done|]. intros obj w5 _.
    apply bind_ext; [|done].
    destruct obj; try done. by apply getattr_method_ext.
  - unfold RemoteCache_remoteMessageReceived.
    apply bind_ext; [done|]. intros a1 w1 _.
    apply bind_ext; [done|]. intros k1 w2 _.
    apply bind_ext; [by apply getattr_method_ext|]. done.
Qed.

Lemma remoteMessageReceived_prefixed_only_witness :
  Referenceable_remoteMessageReceived demo_peer demo_methods 2%positive
    1%positive "ping" (VTuple [VInt 7]) (VDict 1%positive) referenceable_world
  = Referenceable_remoteMessageReceived demo_peer (demo_methods_only "remote_")
      2%positive 1%positive "ping" (VTuple [VInt 7]) (VDict 1%positive)
      referenceable_world
  ∧ ViewPoint_remoteMessageReceived demo_peer demo_methods 6%positive
      1%positive "ping" (VTuple [VInt 7]) (VDict 3%positive) two_viewpoints
    = ViewPoint_remoteMessageReceived demo_peer (demo_methods_only "view_")
        6%positive 1%positive "ping" (VTuple [VInt 7]) (VDict 3%positive)
        two_viewpoints
  ∧ RemoteCache_remoteMessageReceived demo_peer demo_methods 4%positive
      1%positive "ping" (VTuple [VInt 7]) (VDict 3%positive) received_world
    = RemoteCache_remoteMessageReceived demo_peer
        (demo_methods_only "observe_") 4%positive 1%positive "ping"
        (VTuple [VInt 7]) (VDict 3%positive) received_world.
Proof.
  destruct (remoteMessageReceived_prefixed_only demo_peer 1%positive "ping")
    as (Hr & Hv & Ho).
  split_and!.
  - apply Hr. reflexivity.
  - apply Hv. reflexivity.
  - apply Ho. reflexivity.
Defined.

(** A handler under the prefix of another dispatcher is not found. *)
Example remoteMessageReceived_own_prefix :
  Referenceable_remoteMessageReceived demo_peer (demo_methods_only "remote_")
    2%positive 1%positive "ping" (VTuple [VInt 7]) (VDict 1%positive)
    referenceable_world = Ok (VTuple [VInt 7]) referenceable_world
  ∧ Referenceable_remoteMessageReceived demo_peer (demo_methods_only "view_")
      2%positive 1%positive "ping" (VTuple [VInt 7]) (VDict 1%positive)
      referenceable_world = Raise (AttributeError "remote_ping") referenceable_world
  ∧ ViewPoint_remoteMessageReceived demo_peer (demo_methods_only "view_")
      6%positive 1%positive "ping" (VTuple [VInt 7]) (VDict 3%positive)
      two_viewpoints = Ok (VTuple [VObj 2%positive; VInt 7]) two_viewpoints
  ∧ ViewPoint_remoteMessageReceived demo_peer (demo_methods_only "remote_")
      6%positive 1%positive "ping" (VTuple [VInt 7]) (VDict 3%positive)
      two_viewpoints = Raise (AttributeError "view_ping") two_viewpoints
  ∧ RemoteCache_remoteMessageReceived demo_peer (demo_methods_only "observe_")
      4%positive 1%positive "ping" (VTuple [VInt 7]) (VDict 3%positive)
      received_world = Ok (VTuple [VInt 7]) received_world
  ∧ RemoteCache_remoteMessageReceived demo_peer (demo_methods_only "view_")
      4%positive 1%positive "ping" (VTuple [VInt 7]) (VDict 3%positive)
      received_world = Raise (AttributeError "observe_ping") received_world.
Proof. split_and!; vm_compute; reflexivity. Qed.

(** X17. A ViewPoint looks the handler up on its object, under [view_]
    followed by the name of the message, and calls it with its perspective
    before the arguments received; both lists are unserialized for that
    perspective and the result is serialized for it. *)
Theorem ViewPoint_remoteMessageReceived_call (P : Peer) (ms : methods)
    (self : addr) (c : conn) (message : string) (args kw p : value)
    (target : addr) (l : list value) (d : addr)
    (f : addr → list value → value → M value)
    (w w1 w2 : world) (o : instance) (m : gmap string value) :
  getattr self "perspective" w = Ok p w →
  unserialize P c args p w = Ok (VTuple l) w1 →
  getattr self "perspective" w1 = Ok p w1 →
  unserialize P c kw p w1 = Ok (VDict d) w2 →
  getattr self "object" w2 = Ok (VObj target) w2 →
  getattr self "perspective" w2 = Ok p w2 →
  objs w2 !! target = Some o → dicts w2 !! dict_ o = Some m →
  m !! ("view_" +:+ message) = None →
  ms (cls o) ("view_" +:+ message) = Some f →
  ViewPoint_remoteMessageReceived P ms self c message args kw w
  = (try_except (f target (p :: l) (VDict d)) didnt_accept ≫= λ state,
     getattr self "perspective" ≫= λ p',
     serialize P c state p'
       (Some ("view_" +:+ message, VTuple l, VDict d))) w2.
Proof.
  intros Hp Ha Hp1 Hk Hobj Hp2 Ho Hm Hno Hms.
  unfold ViewPoint_remoteMessageReceived.
  rewrite (bind_Ok _ _ _ _ _ Hp), (bind_Ok _ _ _ _ _ Ha).
  rewrite (bind_Ok _ _ _ _ _ Hp1), (bind_Ok _ _ _ _ _ Hk).
  rewrite (bind_Ok _ _ _ _ _ Hobj).
  erewrite bind_Ok; last first.
  { unfold getattr_method.
    rewrite (bind_Ok _ _ _ _ _ (get_obj_Ok _ _ _ Ho)).
    rewrite (bind_Ok _ _ _ _ _ (get_dict_Ok _ _ _ Hm)).
    rewrite Hno, Hms. reflexivity. }
  apply bind_ext; [|done].
  unfold try_except. by rewrite (bind_Ok _ _ _ _ _ Hp2).
Qed.

Lemma ViewPoint_remoteMessageReceived_call_witness :
  ViewPoint_remoteMessageReceived demo_peer demo_methods 6%positive
    1%positive "ping" (VTuple [VInt 7]) (VDict 3%positive) two_viewpoints
  = (try_except
       ((λ (_ : addr) (l : list value) (_ : value), mret (VTuple l))
          4%positive [VObj 2%positive; VInt 7] (VDict 3%positive))
       didnt_accept ≫= λ state,
     getattr 6%positive "perspective" ≫= λ p',
     serialize demo_peer 1%positive state p'
       (Some ("view_" +:+ "ping", VTuple [VInt 7], VDict 3%positive)))
      two_viewpoints.
Proof.
  apply (ViewPoint_remoteMessageReceived_call demo_peer demo_methods
           6%positive 1%positive "ping" (VTuple [VInt 7]) (VDict 3%positive)
           (VObj 2%positive) 4%positive [VInt 7] 3%positive
           (λ _ l _, mret (VTuple l)) two_viewpoints two_viewpoints
           two_viewpoints (Instance viewable_class 3%positive) ∅);
    vm_compute; reflexivity.
Defined.

Example ViewPoint_remoteMessageReceived_scenario :
  ViewPoint_remoteMessageReceived demo_peer demo_methods 6%positive
    1%positive "ping" (VTuple [VInt 7]) (VDict 3%positive) two_viewpoints
  = Ok (VTuple [VObj 2%positive; VInt 7]) two_viewpoints.
Proof. vm_compute. reflexivity. Qed.

